(** * NovelAI Director Tools script: the request/response adapter

    A shallow embedding of [scripts/nai_director_script.py]: the helper
    [call_novelai_api] and the method [NovelAIDirectorScript.run].

    Python text is a [string] (one [ascii] per code point, so the model
    covers text in the Latin-1 range), a [dict] with string keys is a
    [gmap string _], console output and the HTTP POST are events of a
    trace, and [return] / [raise] are outcomes of a small monad.  The
    libraries the script calls ([json], [requests], [base64], [PIL]) are
    not part of the repository: what they answer is a field of [World]. *)

From Stdlib Require Import ZArith String Ascii List DecimalString.
From Stdlib.Strings Require Import Byte.
From Stdlib Require Import Floats.SpecFloat.
From stdpp Require Import gmap strings.

Open Scope string_scope.
Open Scope Z_scope.

(** ** Python [str] operations used by the script *)

Module PyStr.

Definition nl : string := String "010" "".

(** The double quote, for JSON text in examples. *)
Definition dq : string := String (ascii_of_nat 34) "".

(** [str.isspace] on one character, for code points below 256. *)
Definition isspace (c : ascii) : bool :=
  let n := N_of_ascii c in
  (((9 <=? n) && (n <=? 13)) || ((28 <=? n) && (n <=? 32))
   || (n =? 133) || (n =? 160))%N.

Fixpoint lstrip (s : string) : string :=
  match s with
  | String c s' => if isspace c then lstrip s' else s
  | EmptyString => EmptyString
  end.

Fixpoint rstrip (s : string) : string :=
  match s with
  | EmptyString => EmptyString
  | String c s' =>
      match rstrip s' with
      | EmptyString => if isspace c then EmptyString else String c EmptyString
      | r => String c r
      end
  end.

(** [s.strip()] *)
Definition strip (s : string) : string := rstrip (lstrip s).

(** [s.startswith(p)] *)
Fixpoint startswith (s p : string) {struct p} : bool :=
  match p, s with
  | EmptyString, _ => true
  | String a p', String b s' => if ascii_dec a b then startswith s' p' else false
  | String _ _, EmptyString => false
  end.

(** [sub in s] *)
Fixpoint contains (sub s : string) : bool :=
  match s with
  | EmptyString => startswith s sub
  | String _ s' => startswith s sub || contains sub s'
  end.

(** [s.split('\n')] *)
Fixpoint split_lines (s : string) : list string :=
  match s with
  | EmptyString => [EmptyString]
  | String c s' =>
      if ascii_dec c "010" then EmptyString :: split_lines s'
      else match split_lines s' with
           | l :: ls => String c l :: ls
           | [] => [String c EmptyString]
           end
  end.

(** [s[n:]] *)
Fixpoint slice_from (n : nat) (s : string) : string :=
  match n, s with
  | O, _ => s
  | S n', String _ s' => slice_from n' s'
  | S _, EmptyString => EmptyString
  end.

(** [s[:n]] *)
Fixpoint slice_to (n : nat) (s : string) : string :=
  match n, s with
  | S n', String c s' => String c (slice_to n' s')
  | _, _ => EmptyString
  end.

(** [str(z)] for an [int]. *)
Definition of_int (z : Z) : string := NilZero.string_of_int (Z.to_int z).

(** Truthiness of a [str] that may be [None]. *)
Definition truthy (s : option string) : bool :=
  match s with
  | Some (String _ _) => true
  | _ => false
  end.

(** What the theorems mean by "the message includes [part]". *)
Definition includes (msg part : string) : Prop :=
  exists pre post, msg = pre ++ part ++ post.

End PyStr.
Import PyStr.

(** ** Values *)

(** A number as a Gradio [Slider] or [Number] component delivers it: an
    [int], a [float] (binary64), or [None] for a cleared [Number] field. *)
Inductive pyval :=
| PNone
| PInt (z : Z)
| PFloat (f : spec_float).

(** A value decoded from (or encodable as) JSON. *)
#[warnings="-register-all"] Inductive json :=
| JNull
| JBool (b : bool)
| JInt (z : Z)
| JFloat (f : spec_float)
| JStr (s : string)
| JArr (l : list json)
| JObj (d : gmap string json).

(** [if d:] for a dict. *)
Definition dict_truthy {A} (d : gmap string A) : bool :=
  negb (bool_decide (d = ∅)).

(** [d.update(other)]: every key of [other] is written into [d]. *)
Definition dict_update {A} (d other : gmap string A) : gmap string A :=
  other ∪ d.

(** [d.get(k, default)] *)
Definition dict_get {A} (d : gmap string A) (k : string) (dflt : A) : A :=
  default dflt (d !! k).

#[global] Instance byte_eq_decision : EqDecision byte := Byte.byte_eq_dec.

(** A [PIL.Image] object, opened over the decoded bytes. *)
Inductive image := PILImage (data : list byte).

(** ** The request and the response *)

(** The [payload] dict of [call_novelai_api]: three fixed top-level keys
    and the nested [parameters] dict. *)
Record payload := Payload {
  p_input : json;
  p_model : json;
  p_action : json;
  p_parameters : gmap string json
}.

Definition payload_json (p : payload) : json :=
  JObj (<["input" := p_input p]>
       (<["model" := p_model p]>
       (<["action" := p_action p]>
       (<["parameters" := JObj (p_parameters p)]> ∅)))).

(** The arguments of [requests.post]. *)
Record request := Request {
  req_url : string;
  req_headers : list (string * string);
  req_json : payload;
  req_timeout : Z
}.

(** A [requests.Response], as far as the script looks at it.  The header
    names are the keys of a case-insensitive dict, kept here in lower
    case. *)
Record response := Response {
  status_code : Z;
  reason : string;
  url : string;
  headers : gmap string string;
  text : string
}.

(** ** Exceptions *)

Inductive exn_class :=
| Exception
| TypeError
| AttributeError
| ValueError
| OverflowError
| RecursionError
| OSError
| JSONDecodeError          (* json.JSONDecodeError *)
| BinasciiError            (* binascii.Error *)
| UnidentifiedImageError   (* PIL.UnidentifiedImageError *)
| RequestException         (* requests.exceptions.* from here on *)
| HTTPError
| ConnectionError
| Timeout
| ConnectTimeout
| ReadTimeout
| RequestsJSONDecodeError
| InvalidHeader.

#[global] Instance exn_class_eq_dec : EqDecision exn_class.
Proof. solve_decision. Defined.

(** The proper ancestors of a class, among the classes above. *)
Definition supers (c : exn_class) : list exn_class :=
  match c with
  | Exception => []
  | TypeError | AttributeError | ValueError | OverflowError
  | RecursionError | OSError => [Exception]
  | JSONDecodeError | BinasciiError => [ValueError; Exception]
  | UnidentifiedImageError => [OSError; Exception]
  | RequestException => [OSError; Exception]
  | HTTPError | ConnectionError | Timeout =>
      [RequestException; OSError; Exception]
  | ConnectTimeout =>
      [ConnectionError; Timeout; RequestException; OSError; Exception]
  | ReadTimeout => [Timeout; RequestException; OSError; Exception]
  | RequestsJSONDecodeError =>
      [RequestException; OSError; JSONDecodeError; ValueError; Exception]
  | InvalidHeader => [RequestException; OSError; ValueError; Exception]
  end.

(** An exception object: its class, [str(e)], and the [response]
    attribute that [requests] exceptions carry. *)
Record exn := Exn {
  exn_class_of : exn_class;
  exn_msg : string;
  exn_response : option response
}.

Definition mk_exn (c : exn_class) (msg : string) : exn := Exn c msg None.

(** [isinstance(e, c)], which is what an [except c] clause tests. *)
Definition isinstance (e : exn) (c : exn_class) : bool :=
  bool_decide (c = exn_class_of e) || bool_decide (c ∈ supers (exn_class_of e)).

(** ** The libraries *)

Record World := {
  (** [json.loads(s)] *)
  json_loads : string -> exn + json;
  (** [json.dumps(v, indent=2)] *)
  json_dumps : json -> string;
  (** the exception [json.dumps(v)] raises instead, with or without
      [indent], if it raises one (a [ValueError] on an int of more than
      4300 digits) *)
  json_dumps_raises : json -> option exn;
  (** what the network and the service answer to [requests.post] *)
  requests_post : request -> exn + response;
  (** [base64.b64decode(s)] *)
  b64decode : string -> exn + list byte;
  (** [Image.open(io.BytesIO(b))] *)
  image_open : list byte -> exn + image;
  (** [traceback.format_exc()] while [e] is being handled *)
  format_exc : exn -> string;
  (** [repr] of a float *)
  float_repr : spec_float -> string;
  (** [str] of a list or a dict *)
  container_str : json -> string
}.

(** ** Conversions *)

(** [int(v)]: truncation towards zero for a float. *)
Definition py_int (v : pyval) : exn + Z :=
  match v with
  | PNone =>
      inl (mk_exn TypeError
             "int() argument must be a string, a bytes-like object or a real number, not 'NoneType'")
  | PInt z => inr z
  | PFloat S754_nan =>
      inl (mk_exn ValueError "cannot convert float NaN to integer")
  | PFloat (S754_infinity _) =>
      inl (mk_exn OverflowError "cannot convert float infinity to integer")
  | PFloat (S754_zero _) => inr 0
  | PFloat (S754_finite s m e) =>
      let a := if 0 <=? e then Z.pos m * 2 ^ e else Z.pos m / 2 ^ (- e) in
      inr (if s then - a else a)
  end.

(** [float(v)]: the nearest binary64 for an int. *)
Definition py_float (v : pyval) : exn + spec_float :=
  match v with
  | PNone =>
      inl (mk_exn TypeError
             "float() argument must be a string or a real number, not 'NoneType'")
  | PInt z =>
      match binary_normalize 53 1024 z 0 false with
      | S754_infinity _ =>
          inl (mk_exn OverflowError "int too large to convert to float")
      | f => inr f
      end
  | PFloat f => inr f
  end.

(** [str(v)], as an f-string renders it. *)
Definition pyval_str (W : World) (v : pyval) : string :=
  match v with
  | PNone => "None"
  | PInt z => of_int z
  | PFloat f => float_repr W f
  end.

Definition json_str (W : World) (v : json) : string :=
  match v with
  | JNull => "None"
  | JBool true => "True"
  | JBool false => "False"
  | JInt z => of_int z
  | JFloat f => float_repr W f
  | JStr s => s
  | JArr _ | JObj _ => container_str W v
  end.

(** ** Effects: console output, the POST, [return] and [raise] *)

Inductive event :=
| Print (line : string)
| Post (req : request).

(** How a block of statements ends: it falls through with a value, it
    executes [return], or it raises. *)
Inductive flow (R A : Type) :=
| Next (a : A)
| Return (r : R)
| Raise (e : exn).
Arguments Next {R A} a.
Arguments Return {R A} r.
Arguments Raise {R A} e.

Record py (R A : Type) := Py {
  trace : list event;
  outcome : flow R A
}.
Arguments Py {R A} trace outcome.
Arguments trace {R A} _.
Arguments outcome {R A} _.

#[global] Instance py_ret {R} : MRet (py R) := fun A a => Py [] (Next a).

#[global] Instance py_bind {R} : MBind (py R) := fun A B k m =>
  match outcome m with
  | Next a => Py (trace m ++ trace (k a)) (outcome (k a))
  | Return r => Py (trace m) (Return r)
  | Raise e => Py (trace m) (Raise e)
  end.

Definition ret_ {R A} (r : R) : py R A := Py [] (Return r).
Definition raise {R A} (e : exn) : py R A := Py [] (Raise e).
Definition print {R} (line : string) : py R unit := Py [Print line] (Next tt).

(** The answer of a library call: a value, or an exception raised here. *)
Definition lift {R A} (x : exn + A) : py R A :=
  match x with
  | inl e => raise e
  | inr a => mret a
  end.

(** [requests.post(...)]: the call is recorded, then the world answers. *)
Definition post {R} (W : World) (req : request) : py R response :=
  Py [Post req] (Next tt) ;; lift (requests_post W req).

(** [try: body  except ...]: [handler e] is the suite of the first clause
    that matches [e], if any.  An exception raised by that suite, and a
    [return] of the body, leave the statement as they are. *)
Definition try_except {R A} (body : py R A) (handler : exn -> option (py R A))
  : py R A :=
  match outcome body with
  | Raise e =>
      match handler e with
      | Some h => Py (trace body ++ trace h) (outcome h)
      | None => body
      end
  | _ => body
  end.

(** How a function call ends. *)
Inductive completion (R : Type) :=
| Returned (r : R)
| Raised (e : exn).
Arguments Returned {R} r.
Arguments Raised {R} e.

(** A function body never falls through here: every path of both
    functions ends in [return] or in an exception. *)
Definition completes {R} (body : py R Empty_set) : completion R :=
  match outcome body with
  | Next a => match a with end
  | Return r => Returned r
  | Raise e => Raised e
  end.

(** A call from another function: the callee's trace is kept, its
    [return] value is the value of the call, its exception goes on. *)
Definition invoke {R R'} (body : py R Empty_set) : py R' R :=
  Py (trace body)
     match completes body with
     | Returned r => Next r
     | Raised e => Raise e
     end.

(** The events of a trace, by kind. *)
Definition prints (t : list event) : list string :=
  omap (fun ev => match ev with Print l => Some l | Post _ => None end) t.

Definition posts (t : list event) : list request :=
  omap (fun ev => match ev with Post r => Some r | Print _ => None end) t.

(** ** [call_novelai_api] *)

Definition NAI_API_ENDPOINT : string :=
  "https://api.novelai.net/ai/generate-image".

Definition NAI_SAMPLERS : list string :=
  ["k_euler"; "k_euler_ancestral"; "k_dpmpp_2s_ancestral";
   "k_dpmpp_sde"; "ddim_v3"].

(** [(images, info_text)]: a list of images or [None], and a text. *)
Definition result : Type := option (list image) * string.

(** [f"{s}"] for a [str] that may be [None]. *)
Definition opt_str (s : option string) : string :=
  match s with
  | Some k => k
  | None => "None"
  end.

(** Lines 37-46: the Director Tools field.  It is decoded only when it
    is not blank, and has to decode to a dict. *)
Definition parse_director_tools (W : World) (director_json_str : option string)
  : py result (gmap string json) :=
  if truthy director_json_str && truthy (strip <$> director_json_str) then
    try_except
      (director_params ← lift (json_loads W (opt_str director_json_str));
       match director_params with
       | JObj d => mret d
       | _ =>
           raise (mk_exn ValueError
                    "Director Tools JSON must decode to a dictionary (object).")
       end)
      (fun e =>
         if isinstance e JSONDecodeError then
           Some (ret_ (None, "Error: Invalid JSON in Director Tools field: "
                             ++ exn_msg e))
         else if isinstance e ValueError then
           Some (ret_ (None, "Error: " ++ exn_msg e))
         else None)
  else mret ∅.

(** Lines 30-34. *)
Definition nai_headers (api_key : option string) : list (string * string) :=
  [("Authorization", "Bearer " ++ opt_str api_key);
   ("Content-Type", "application/json");
   ("accept", "application/json")].

(** Lines 52-73: the dict display, before the merge. *)
Definition base_payload (prompt neg_prompt : string) (width height : Z)
    (steps : Z) (scale : spec_float) (sampler : string) (seed : Z) : payload :=
  {| p_input := JStr prompt;
     p_model := JStr "nai-diffusion-3";
     p_action := JStr "generate";
     p_parameters :=
       list_to_map
         [("negative_prompt", JStr neg_prompt);
          ("width", JInt width);
          ("height", JInt height);
          ("steps", JInt steps);
          ("scale", JFloat scale);
          ("sampler", JStr sampler);
          ("seed", JInt seed);
          ("qualityToggle", JBool true);
          ("ucPreset", JInt 0)] |}.

(** Lines 77-78: [payload['parameters'].update(director_params)], when
    the dict is not empty. *)
Definition merge_director (p : payload) (director_params : gmap string json)
  : payload :=
  if dict_truthy director_params then
    {| p_input := p_input p;
       p_model := p_model p;
       p_action := p_action p;
       p_parameters := dict_update (p_parameters p) director_params |}
  else p.

(** The request of line 90. *)
Definition nai_request (api_key : option string) (body : payload) : request :=
  {| req_url := NAI_API_ENDPOINT;
     req_headers := nai_headers api_key;
     req_json := body;
     req_timeout := 180 |}.

(** [json.dumps(v)], at lines 81 and 85: the text, or the exception. *)
Definition dumps (W : World) (v : json) : exn + string :=
  match json_dumps_raises W v with
  | Some e => inl e
  | None => inr (json_dumps W v)
  end.

(** Lines 27-86: everything before the [try].  The values of the dict
    display are evaluated in order, so [int(steps)], [float(scale)] and
    [int(seed)] run, outside any [try], before the payload exists.
    So does [json.dumps(payload)] of line 81, which can raise.  When it
    does not, [json.loads] of the text it made gives back an equal
    value (a deep copy): the logged value is the payload itself, and
    the dump of line 85 is made of the same value. *)
Definition prepare_payload (W : World) (api_key : option string)
    (prompt neg_prompt : string) (width height : Z) (steps scale : pyval)
    (sampler : string) (seed : pyval) (director_json_str : option string)
  : py result payload :=
  if negb (truthy api_key) then
    ret_ (None, "Error: NovelAI API Key is missing.")
  else
    director_params ← parse_director_tools W director_json_str;
    steps_i ← lift (py_int steps);
    scale_f ← lift (py_float scale);
    seed_i ← lift (py_int seed);
    let payload :=
      merge_director
        (base_payload prompt neg_prompt width height steps_i scale_f sampler seed_i)
        director_params in
    _ ← lift (dumps W (payload_json payload));
    let log_payload := payload_json payload in
    print "--- Sending Payload to NovelAI ---";;
    text ← lift (dumps W log_payload);
    print text;;
    print "---------------------------------";;
    mret payload.

(** [response.raise_for_status()]: only 4xx and 5xx raise. *)
Definition raise_for_status {R} (r : response) : py R unit :=
  if (400 <=? status_code r) && (status_code r <? 500) then
    raise (Exn HTTPError
             (of_int (status_code r) ++ " Client Error: " ++ reason r
              ++ " for url: " ++ url r)
             (Some r))
  else if (500 <=? status_code r) && (status_code r <? 600) then
    raise (Exn HTTPError
             (of_int (status_code r) ++ " Server Error: " ++ reason r
              ++ " for url: " ++ url r)
             (Some r))
  else mret tt.

(** [response.json()]: [json.loads] on the body; a decode error comes
    out as the [requests] subclass of it. *)
Definition response_json (W : World) (r : response) : exn + json :=
  match json_loads W (text r) with
  | inl e =>
      inl (if isinstance e JSONDecodeError
           then mk_exn RequestsJSONDecodeError (exn_msg e)
           else e)
  | inr v => inr v
  end.

(** Lines 116-120: the loop over the lines, left at the first line that
    starts with [data:]. *)
Fixpoint find_b64_data (lines : list string) : option string :=
  match lines with
  | [] => None
  | line :: rest =>
      if startswith line "data:"
      then Some (strip (slice_from 5 line))
      else find_b64_data rest
  end.

(** The branch of the [if]/[elif] chain of lines 107-149 a response takes. *)
Inductive response_kind := ZipArchive | EventStream | JsonBody | OtherType.

Definition content_type_of (r : response) : string :=
  dict_get (headers r) "content-type" "".

Definition classify (r : response) : response_kind :=
  let content_type := content_type_of r in
  if contains "application/zip" content_type then ZipArchive
  else if contains "text/event-stream" content_type
          || startswith (strip (text r)) "event:" then EventStream
  else if contains "application/json" content_type then JsonBody
  else OtherType.

(** Line 131: the text returned with the image. *)
Definition final_info (W : World) (seed : pyval) : string :=
  "Successfully generated image via NovelAI." ++ nl ++ "Seed: "
  ++ pyval_str W seed ++ " (API might use/return a different one)" ++ nl
  ++ "(Check console logs for request details)".

(** Lines 115-135. *)
Definition read_event_stream (W : World) (seed : pyval) (r : response)
  : py result Empty_set :=
  let lines := split_lines (strip (text r)) in
  let b64_data := find_b64_data lines in
  if negb (truthy b64_data) then
    print ("Could not find base64 data in event-stream response:" ++ nl
           ++ text r);;
    ret_ (None, "Error: Could not parse image data from NovelAI stream. Status: "
                ++ of_int (status_code r))
  else
    try_except
      (img_data ← lift (b64decode W (opt_str b64_data));
       image ← lift (image_open W img_data);
       print "Image received and decoded from event stream.";;
       ret_ (Some [image], final_info W seed))
      (fun decode_err =>
         if isinstance decode_err Exception then
           Some (print ("Error decoding base64 data: " ++ exn_msg decode_err);;
                 ret_ (None, "Error decoding image data from NovelAI: "
                             ++ exn_msg decode_err))
         else None).

(** Lines 139-145. *)
Definition read_json_body (W : World) (r : response) : py result Empty_set :=
  try_except
    (json_response ← lift (response_json W r);
     ret_ (None, "Error: JSON response handling not implemented yet (unknown structure)."))
    (fun e =>
       if isinstance e JSONDecodeError then
         Some (ret_ (None, "Error: Failed to decode JSON response. Status: "
                           ++ of_int (status_code r) ++ ", Content: "
                           ++ slice_to 200 (text r)))
       else None).

(** Lines 106-149: the chain itself. *)
Definition read_body (W : World) (seed : pyval) (r : response)
  : py result Empty_set :=
  match classify r with
  | ZipArchive => ret_ (None, "Error: Zip response handling not implemented yet.")
  | EventStream => read_event_stream W seed r
  | JsonBody => read_json_body W r
  | OtherType =>
      ret_ (None, "Error: Unexpected Content-Type from NovelAI: "
                  ++ content_type_of r ++ ". Status: " ++ of_int (status_code r))
  end.

(** Lines 92-149: the body of the [try], once the response is there. *)
Definition handle_response (W : World) (seed : pyval) (r : response)
  : py result Empty_set :=
  print ("NovelAI Response Status Code: " ++ of_int (status_code r));;
  raise_for_status r;;
  read_body W seed r.


(** Lines 155-165: the suite of [except HTTPError as e]. *)
Definition on_http_error (W : World) (e : exn) : py result Empty_set :=
  match exn_response e with
  | None =>
      raise (mk_exn AttributeError
               "'NoneType' object has no attribute 'status_code'")
  | Some r =>
      let error_details := "HTTP Error: " ++ of_int (status_code r) in
      error_details ←
        try_except
          (nai_error ← lift (response_json W r);
           match nai_error with
           | JObj d =>
               mret (error_details ++ nl ++ "NovelAI Message: "
                     ++ json_str W (dict_get d "message" (JStr (text r))))
           | _ =>
               (* a list, a str, a number or None has no [get] *)
               raise (mk_exn AttributeError "object has no attribute 'get'")
           end)
          (fun _ =>
             Some (mret (error_details ++ nl ++ "Response: "
                         ++ slice_to 200 (text r))));
      print ("NovelAI API HTTP Error: " ++ error_details);;
      ret_ (None, "NovelAI API Error: " ++ error_details)
  end.

(** Lines 152-173: the [except] clauses of the outer [try], in order. *)
Definition on_exception (W : World) (e : exn) : option (py result Empty_set) :=
  if isinstance e Timeout then
    Some (print "NovelAI request timed out.";;
          ret_ (None, "Error: Request to NovelAI timed out."))
  else if isinstance e HTTPError then
    Some (on_http_error W e)
  else if isinstance e RequestException then
    Some (print ("Network error calling NovelAI API: " ++ exn_msg e);;
          ret_ (None, "Error: Network error connecting to NovelAI API: "
                      ++ exn_msg e))
  else if isinstance e Exception then
    Some (print "!!! Unexpected Error in call_novelai_api !!!";;
          print (format_exc W e);;
          ret_ (None, "Unexpected Error: " ++ exn_msg e))
  else None.

(** Lines 89-173 once [requests.post] has answered or raised: the rest
    of the [try] suite under the [except] clauses. *)
Definition after_post (W : World) (seed : pyval) (answer : exn + response)
  : py result Empty_set :=
  try_except (lift answer ≫= handle_response W seed) (on_exception W).

Definition call_novelai_api (W : World) (api_key : option string)
    (prompt neg_prompt : string) (width height : Z) (steps scale : pyval)
    (sampler : string) (seed : pyval) (director_json_str : option string)
  : py result Empty_set :=
  payload ← prepare_payload W api_key prompt neg_prompt width height
              steps scale sampler seed director_json_str;
  try_except
    (response ← post W (nai_request api_key payload);
     handle_response W seed response)
    (on_exception W).

(** ** [NovelAIDirectorScript.run] *)

(** The two classes of the host's [modules.processing] that [run]
    touches: the fields it reads or writes, and the arguments it gives
    to the [Processed] constructor. *)
Module processing.

Record StableDiffusionProcessing := {
  prompt : string;
  negative_prompt : string;
  width : Z;
  height : Z;
  seed : Z;
  extra_generation_params : gmap string json
}.

Record Processed := {
  proc_p : StableDiffusionProcessing;
  images_list : list image;
  proc_seed : Z;
  info : string
}.

End processing.

(** [p.extra_generation_params[key] = value] *)
Definition set_extra_param (p : processing.StableDiffusionProcessing)
    (key : string) (value : json) : processing.StableDiffusionProcessing :=
  {| processing.prompt := processing.prompt p;
     processing.negative_prompt := processing.negative_prompt p;
     processing.width := processing.width p;
     processing.height := processing.height p;
     processing.seed := processing.seed p;
     processing.extra_generation_params :=
       <[key := value]> (processing.extra_generation_params p) |}.

(** [if images:] *)
Definition images_truthy (images : option (list image)) : bool :=
  match images with
  | Some (_ :: _) => true
  | _ => false
  end.

(** What [run] leaves behind: the processing object as it is after the
    call, and the trace and completion of the call itself. *)
Record run_outcome := {
  p_after : processing.StableDiffusionProcessing;
  run_py : py processing.Processed Empty_set
}.

Definition run (W : World) (p : processing.StableDiffusionProcessing)
    (enabled : bool) (api_key : option string) (steps : pyval)
    (sampler : string) (scale seed : pyval)
    (director_tools_json : option string) : run_outcome :=
  if negb enabled then
    {| p_after := p;
       run_py :=
         print "NovelAI script: Disabled, skipping.";;
         ret_ (processing.Build_Processed p [] (processing.seed p) "") |}
  else
    let called : py processing.Processed result :=
      print "NovelAI script: Enabled, attempting to override generation.";;
      invoke (call_novelai_api W api_key (processing.prompt p)
                (processing.negative_prompt p) (processing.width p)
                (processing.height p) steps scale sampler seed
                director_tools_json) in
    match outcome called with
    | Next (images, info_text) =>
        if images_truthy images then
          {| p_after := p;
             run_py :=
               called;;
               print ("NovelAI script: Successfully received "
                      ++ of_int (Z.of_nat (length (default [] images)))
                      ++ " image(s).");;
               seed_i ← lift (py_int seed);
               ret_ (processing.Build_Processed p (default [] images)
                       seed_i info_text) |}
        else
          let p' := set_extra_param p "NovelAI Error" (JStr info_text) in
          {| p_after := p';
             run_py :=
               called;;
               print ("NovelAI script: API call failed. Error: " ++ info_text);;
               ret_ (processing.Build_Processed p' [] (processing.seed p')
                       ("NovelAI Generation Failed: " ++ info_text)) |}
    | Return r =>
        (* not reached: a call is a value or an exception *)
        {| p_after := p; run_py := ret_ r |}
    | Raise e =>
        (* no [try] around the call: the exception leaves [run] *)
        {| p_after := p; run_py := Py (trace called) (Raise e) |}
    end.

(** ** Vocabulary of the statements *)

(** A call that fails with [msg] and hands back no image. *)
Definition fails_with (c : py result Empty_set) (msg : string) : Prop :=
  completes c = Returned (None, msg).

(** A call during which [requests.post] was not reached. *)
Definition no_request {R A} (c : py R A) : Prop := posts (trace c) = [].



(** A status that [raise_for_status] lets through. *)
Definition status_passes (r : response) : bool :=
  negb ((400 <=? status_code r) && (status_code r <? 600)).

(** The exception [raise_for_status] raises on a 4xx or 5xx status. *)
Definition http_error_of (r : response) : exn :=
  Exn HTTPError
    (of_int (status_code r)
     ++ (if status_code r <? 500 then " Client Error: " else " Server Error: ")
     ++ reason r ++ " for url: " ++ url r)
    (Some r).

(** [error_details] as lines 157-163 leave it. *)
Definition error_details (W : World) (r : response) : string :=
  let error_details := "HTTP Error: " ++ of_int (status_code r) in
  match response_json W r with
  | inr (JObj d) =>
      error_details ++ nl ++ "NovelAI Message: "
      ++ json_str W (dict_get d "message" (JStr (text r)))
  | _ => error_details ++ nl ++ "Response: " ++ slice_to 200 (text r)
  end.

Definition zip_not_implemented : string :=
  "Error: Zip response handling not implemented yet.".

Definition json_not_implemented : string :=
  "Error: JSON response handling not implemented yet (unknown structure).".

Definition unexpected_content_type (content_type : string) (status : Z)
  : string :=
  "Error: Unexpected Content-Type from NovelAI: " ++ content_type
  ++ ". Status: " ++ of_int status.

(** ** A small world for the examples

    [json.loads] knows a few texts, [b64decode] knows the encoding of the
    PNG signature, [Image.open] accepts bytes that start with that
    signature; the network answer is a parameter. *)
Module Demo.

Definition png_signature : list byte := [x89; x50; x4e; x47; x0d; x0a; x1a; x0a].

Definition foo_blob : string := "{" ++ dq ++ "foo" ++ dq ++ ": 1}".
Definition seed_blob : string :=
  "{" ++ dq ++ "seed" ++ dq ++ ": 7, " ++ dq ++ "input" ++ dq ++ ": 1}".
Definition bad_key_body : string :=
  "{" ++ dq ++ "message" ++ dq ++ ": " ++ dq ++ "bad key" ++ dq ++ "}".
Definition code_body : string := "{" ++ dq ++ "code" ++ dq ++ ": 7}".

Definition bad_json_error : exn :=
  mk_exn JSONDecodeError
    "Expecting property name enclosed in double quotes: line 1 column 2 (char 1)".

Definition loads (s : string) : exn + json :=
  if String.eqb s foo_blob then inr (JObj {["foo" := JInt 1]})
  else if String.eqb s seed_blob then
    inr (JObj (<["seed" := JInt 7]> {["input" := JInt 1]}))
  else if String.eqb s bad_key_body then
    inr (JObj {["message" := JStr "bad key"]})
  else if String.eqb s code_body then inr (JObj {["code" := JInt 7]})
  else if String.eqb s "[1,2]" then inr (JArr [JInt 1; JInt 2])
  else if String.eqb s "{bad json" then inl bad_json_error
  else inl (mk_exn JSONDecodeError "Expecting value: line 1 column 1 (char 0)").

Definition decode64 (s : string) : exn + list byte :=
  if String.eqb s "iVBORw0KGgo=" then inr png_signature
  else if String.eqb s "" then inr []
  else if String.eqb s "QUJD" then inr [x41; x42; x43]
  else inl (mk_exn BinasciiError "Incorrect padding").

Definition open_image (b : list byte) : exn + image :=
  if bool_decide (take 8 b = png_signature) then inr (PILImage b)
  else inl (mk_exn UnidentifiedImageError "cannot identify image file").

Definition world (answer : request -> exn + response) : World :=
  {| json_loads := loads;
     json_dumps := fun _ => "{...}";
     json_dumps_raises := fun _ => None;
     requests_post := answer;
     b64decode := decode64;
     image_open := open_image;
     format_exc := fun e => "Traceback (most recent call last): " ++ exn_msg e;
     float_repr := fun _ => "6.0";
     container_str := fun _ => "[...]" |}.

Definition reply (status : Z) (content_type body : string) : response :=
  {| status_code := status;
     reason := "";
     url := NAI_API_ENDPOINT;
     headers := {["content-type" := content_type]};
     text := body |}.

(** The service answers every request with [r]. *)
Definition answering (r : response) : World := world (fun _ => inr r).

(** The request never gets an answer: [requests.post] raises [e]. *)
Definition failing (e : exn) : World := world (fun _ => inl e).

Definition six : spec_float := S754_finite false 6755399441055744 (-50).

(** A call with the defaults of the panel: 28 steps, scale 6.0, seed -1. *)
Definition call (W : World) (api_key : option string) (seed : pyval)
    (director_json_str : option string) : py result Empty_set :=
  call_novelai_api W api_key "1girl" "lowres" 832 1216 (PInt 28) (PFloat six)
    "k_euler_ancestral" seed director_json_str.

Definition p0 : processing.StableDiffusionProcessing :=
  {| processing.prompt := "1girl";
     processing.negative_prompt := "lowres";
     processing.width := 832;
     processing.height := 1216;
     processing.seed := 42;
     processing.extra_generation_params := ∅ |}.

End Demo.

(** ** More vocabulary, and more worlds for the examples *)

(** The exception of the first of [int(steps)], [float(scale)],
    [int(seed)] that fails, in the order the dict display evaluates them. *)
Definition first_conversion_error (steps scale seed : pyval) : option exn :=
  match py_int steps with
  | inl e => Some e
  | inr _ =>
      match py_float scale with
      | inl e => Some e
      | inr _ =>
          match py_int seed with
          | inl e => Some e
          | inr _ => None
          end
      end
  end.

(** The Director Tools field is not decoded: [None], empty, or blank. *)
Definition blank (director_json_str : option string) : bool :=
  negb (truthy director_json_str && truthy (strip <$> director_json_str)).

(** Every [return] a block can reach returns a value that satisfies [P]. *)
Definition returns_only {A} (P : result -> Prop) (m : py result A) : Prop :=
  forall x, outcome m = Return x -> P x.

(** No images, or exactly one image with the text of line 131. *)
Definition none_or_one_image (W : World) (seed : pyval) (x : result) : Prop :=
  fst x = None \/ exists img, x = (Some [img], final_info W seed).

Module Cases.

(** What [json.loads] raises on a text nested too deep: not a
    [ValueError]. *)
Definition recursion_error : exn :=
  mk_exn RecursionError
    "maximum recursion depth exceeded while decoding a JSON array from a unicode string".

(** What [json.loads] raises on an integer literal with too many digits:
    a [ValueError] that is no [JSONDecodeError]. *)
Definition digits_error : exn :=
  mk_exn ValueError
    "Exceeds the limit (4300 digits) for integer string conversion: value has 5000 digits; use sys.set_int_max_str_digits() to increase the limit".

(** [deep] and [long] stand for the two texts. *)
Definition deep : string := "[[[[[[[[".
Definition long : string := "11111111".

Definition loads (s : string) : exn + json :=
  if String.eqb s deep then inl recursion_error
  else if String.eqb s long then inl digits_error
  else if String.eqb s "{}" then inr (JObj ∅)
  else Demo.loads s.

Definition world (answer : request -> exn + response) : World :=
  {| json_loads := loads;
     json_dumps := json_dumps (Demo.world answer);
     json_dumps_raises := json_dumps_raises (Demo.world answer);
     requests_post := answer;
     b64decode := Demo.decode64;
     image_open := Demo.open_image;
     format_exc := format_exc (Demo.world answer);
     float_repr := float_repr (Demo.world answer);
     container_str := container_str (Demo.world answer) |}.

Definition silent : World := world (fun _ => inl (mk_exn ConnectionError "unreachable")).

(** The service answers with an event stream that has no content
    type, one line with the marker and one image. *)
Definition streaming : World :=
  Demo.answering
    (Demo.reply 200 "" ("event: newImage" ++ nl ++ "data:iVBORw0KGgo=")).

(** The request the demo call sends when nothing is merged. *)
Definition plain_body : payload :=
  base_payload "1girl" "lowres" 832 1216 28 Demo.six "k_euler_ancestral" (-1).

(** [repr] of a [str], as far as the examples need it: single quotes
    around, a line feed shown as a backslash and an [n]. *)
Fixpoint repr_chars (s : string) : string :=
  match s with
  | EmptyString => EmptyString
  | String c s' =>
      (if ascii_dec c "010" then "\n" else String c EmptyString)
      ++ repr_chars s'
  end.

Definition repr (s : string) : string := "'" ++ repr_chars s ++ "'".

(** What [requests.post] does first: a header value with a line feed in
    it is refused with [InvalidHeader], whose text quotes the value, and
    nothing is sent; otherwise the service answers. *)
Definition checked_post (answer : request -> exn + response) (req : request)
  : exn + response :=
  match List.find (fun h => contains nl (snd h)) (req_headers req) with
  | Some h =>
      inl (mk_exn InvalidHeader
             ("Invalid leading whitespace, reserved character(s), or return character(s) in header value: "
              ++ repr (snd h)))
  | None => answer req
  end.

(** The service answers every request that reaches it with [r]. *)
Definition checking (r : response) : World :=
  Demo.world (checked_post (fun _ => inr r)).

(** [json.dumps] refuses an int of more than [limit] digits under
    [seed]: the bound stands for the 4300 digits of the interpreter. *)
Definition digits_limit (limit : nat) (v : json) : option exn :=
  match v with
  | JObj top =>
      match top !! "parameters" with
      | Some (JObj params) =>
          match params !! "seed" with
          | Some (JInt z) =>
              if (limit <? String.length (of_int (Z.abs z)))%nat
              then Some (mk_exn ValueError
                           "Exceeds the limit (4300 digits) for integer string conversion")
              else None
          | _ => None
          end
      | _ => None
      end
  | _ => None
  end.

Definition bounded (limit : nat) : World :=
  {| json_loads := loads;
     json_dumps := json_dumps silent;
     json_dumps_raises := digits_limit limit;
     requests_post := requests_post silent;
     b64decode := b64decode silent;
     image_open := image_open silent;
     format_exc := format_exc silent;
     float_repr := float_repr silent;
     container_str := container_str silent |}.

End Cases.

(** * Properties *)

(** ** Facts about the string operations *)

Lemma app_cons (c : ascii) (a b : string) : String c a ++ b = String c (a ++ b).
Proof. reflexivity. Qed.

Lemma app_nil_l (b : string) : "" ++ b = b.
Proof. reflexivity. Qed.

Lemma startswith_app (p r : string) : startswith (p ++ r) p = true.
Proof.
  induction p as [|a p IH]; [reflexivity|].
  rewrite app_cons. simpl.
  destruct (ascii_dec a a); [exact IH | congruence].
Qed.

Lemma startswith_inv (s p : string) :
  startswith s p = true -> exists r, s = p ++ r.
Proof.
  revert s. induction p as [|a p IH]; intros s H.
  - exists s. reflexivity.
  - destruct s as [|b s]; simpl in H; [discriminate|].
    destruct (ascii_dec a b) as [->|]; [|discriminate].
    destruct (IH _ H) as [r ->]. exists r. reflexivity.
Qed.

Lemma string_app_assoc (a b c : string) : (a ++ b) ++ c = a ++ b ++ c.
Proof.
  induction a as [|x a IH]; [reflexivity|].
  rewrite !app_cons. f_equal. exact IH.
Qed.

Lemma string_app_nil_r (a : string) : a ++ "" = a.
Proof.
  induction a as [|x a IH]; [reflexivity|].
  rewrite app_cons. f_equal. exact IH.
Qed.

(** [sub in s] decides [includes s sub]. *)
Lemma contains_includes (sub s : string) :
  contains sub s = true <-> includes s sub.
Proof.
  split.
  - induction s as [|c s IH]; simpl; intros H.
    + destruct (startswith_inv _ _ H) as [r Hr]. exists "", r. exact Hr.
    + apply orb_true_iff in H as [H|H].
      * destruct (startswith_inv _ _ H) as [r Hr]. exists "", r. exact Hr.
      * destruct (IH H) as (pre & post & ->). exists (String c pre), post.
        reflexivity.
  - intros (pre & post & ->). induction pre as [|c pre IH].
    + rewrite app_nil_l. destruct (sub ++ post)%string eqn:E; simpl.
      * destruct sub; [reflexivity | discriminate].
      * rewrite <- E, startswith_app. reflexivity.
    + rewrite app_cons. simpl. rewrite IH. apply orb_true_r.
Qed.

Lemma includes_app_r (pre msg part : string) :
  includes msg part -> includes (pre ++ msg) part.
Proof.
  intros (a & b & ->). exists (pre ++ a)%string, b.
  now rewrite string_app_assoc.
Qed.


Lemma includes_refl (s : string) : includes s s.
Proof. exists "", "". now rewrite app_nil_l, string_app_nil_r. Qed.



Lemma strip_truthy (s : string) :
  truthy (Some (strip s)) = true -> truthy (Some s) = true.
Proof. destruct s; [discriminate | reflexivity]. Qed.

(** ** Facts about the effects *)

Lemma bind_next {R A B} (m : py R A) (k : A -> py R B) (a : A) :
  outcome m = Next a ->
  m ≫= k = Py (trace m ++ trace (k a)) (outcome (k a)).
Proof. intros H. unfold mbind, py_bind. now rewrite H. Qed.

Lemma bind_return {R A B} (m : py R A) (k : A -> py R B) (r : R) :
  outcome m = Return r -> m ≫= k = Py (trace m) (Return r).
Proof. intros H. unfold mbind, py_bind. now rewrite H. Qed.

Lemma bind_raise {R A B} (m : py R A) (k : A -> py R B) (e : exn) :
  outcome m = Raise e -> m ≫= k = Py (trace m) (Raise e).
Proof. intros H. unfold mbind, py_bind. now rewrite H. Qed.

Lemma try_except_return {R A} (body : py R A) h (r : R) :
  outcome body = Return r -> try_except body h = body.
Proof. intros H. unfold try_except. now rewrite H. Qed.

Lemma try_except_caught {R A} (body : py R A) h (e : exn) (s : py R A) :
  outcome body = Raise e -> h e = Some s ->
  try_except body h = Py (trace body ++ trace s) (outcome s).
Proof. intros H Hs. unfold try_except. now rewrite H, Hs. Qed.

Lemma posts_app (t u : list event) :
  posts (t ++ u) = (posts t ++ posts u)%list.
Proof. apply omap_app. Qed.

Lemma prints_app (t u : list event) :
  prints (t ++ u) = (prints t ++ prints u)%list.
Proof. apply omap_app. Qed.

(** ** The API key comes first *)

(** C3. When the API key is absent ([None]) or empty, the call returns no
    images and the message that the key is missing, and [requests.post]
    is never reached: the trace of the call is empty. *)
Theorem missing_api_key_no_request (W : World) (api_key : option string)
    (prompt neg_prompt : string) (width height : Z) (steps scale : pyval)
    (sampler : string) (seed : pyval) (director_json_str : option string) :
  truthy api_key = false ->
  let c := call_novelai_api W api_key prompt neg_prompt width height steps
             scale sampler seed director_json_str in
  fails_with c "Error: NovelAI API Key is missing." /\ no_request c
  /\ trace c = [].
Proof.
  intros H c. subst c. unfold call_novelai_api, prepare_payload.
  rewrite H. simpl. repeat split.
Qed.

Lemma missing_api_key_no_request_witness :
  (let c := Demo.call (Demo.answering (Demo.reply 200 "text/plain" ""))
              (Some "") (PInt (-1)) None in
   fails_with c "Error: NovelAI API Key is missing." /\ no_request c
   /\ trace c = [])
  /\
  (let c := Demo.call (Demo.answering (Demo.reply 200 "text/plain" ""))
              None (PInt (-1)) None in
   fails_with c "Error: NovelAI API Key is missing." /\ no_request c
   /\ trace c = []).
Proof.
  split.
  - apply (missing_api_key_no_request _ (Some "")). reflexivity.
  - apply (missing_api_key_no_request _ None). reflexivity.
Defined.

(** ** The Director Tools field *)

Lemma parse_director_tools_blank (W : World) (director_json_str : option string) :
  truthy director_json_str && truthy (strip <$> director_json_str) = false ->
  parse_director_tools W director_json_str = Py [] (Next ∅).
Proof. intros H. unfold parse_director_tools. now rewrite H. Qed.

Lemma parse_director_tools_dict (W : World) (s : string) (d : gmap string json) :
  truthy (Some (strip s)) = true ->
  json_loads W s = inr (JObj d) ->
  parse_director_tools W (Some s) = Py [] (Next d).
Proof.
  intros Hs H. unfold parse_director_tools.
  rewrite (strip_truthy _ Hs). simpl fmap. rewrite Hs. simpl.
  rewrite H. reflexivity.
Qed.

Lemma parse_director_tools_malformed (W : World) (s : string) (e : exn) :
  truthy (Some (strip s)) = true ->
  json_loads W s = inl e ->
  isinstance e JSONDecodeError = true ->
  parse_director_tools W (Some s)
  = Py [] (Return (None, "Error: Invalid JSON in Director Tools field: "
                         ++ exn_msg e)).
Proof.
  intros Hs H He. unfold parse_director_tools.
  rewrite (strip_truthy _ Hs). simpl fmap. rewrite Hs. simpl.
  rewrite H. unfold try_except. simpl. rewrite He. reflexivity.
Qed.

Lemma parse_director_tools_not_dict (W : World) (s : string) (v : json) :
  truthy (Some (strip s)) = true ->
  json_loads W s = inr v ->
  (forall d, v <> JObj d) ->
  parse_director_tools W (Some s)
  = Py [] (Return (None, "Error: Director Tools JSON must decode to a dictionary (object).")).
Proof.
  intros Hs H Hv. unfold parse_director_tools.
  rewrite (strip_truthy _ Hs). simpl fmap. rewrite Hs. simpl.
  rewrite H. destruct v; try reflexivity. now destruct (Hv d).
Qed.

(** What holds of C4 in the code.  With an API key present and a
    Director Tools text that is not blank: when [json.loads] rejects
    the text with a [JSONDecodeError], the call returns no image
    and a message that carries the parser's description; when the text
    decodes to something that is not a dict, the call returns no image
    and the validation message; the two messages differ whatever the
    parser says, and in both cases [requests.post] is not reached. *)
Theorem invalid_director_json_no_request (W : World) (api_key : option string)
    (prompt neg_prompt : string) (width height : Z) (steps scale : pyval)
    (sampler : string) (seed : pyval) (s : string) :
  truthy api_key = true ->
  truthy (Some (strip s)) = true ->
  let c := call_novelai_api W api_key prompt neg_prompt width height steps
             scale sampler seed (Some s) in
  (forall e, json_loads W s = inl e -> isinstance e JSONDecodeError = true ->
     fails_with c ("Error: Invalid JSON in Director Tools field: " ++ exn_msg e)
     /\ no_request c)
  /\ (forall v, json_loads W s = inr v -> (forall d, v <> JObj d) ->
     fails_with c "Error: Director Tools JSON must decode to a dictionary (object)."
     /\ no_request c)
  /\ (forall m,
     "Error: Invalid JSON in Director Tools field: " ++ m
     <> "Error: Director Tools JSON must decode to a dictionary (object).").
Proof.
  intros Hk Hs c. subst c. unfold call_novelai_api, prepare_payload.
  rewrite Hk. simpl negb. cbv iota. repeat split.
  - rewrite (parse_director_tools_malformed W s e Hs H H0). reflexivity.
  - rewrite (parse_director_tools_malformed W s e Hs H H0). reflexivity.
  - rewrite (parse_director_tools_not_dict W s v Hs H H0). reflexivity.
  - rewrite (parse_director_tools_not_dict W s v Hs H H0). reflexivity.
  - intros m Hm. cbv in Hm. discriminate Hm.
Qed.

Lemma invalid_director_json_no_request_witness :
  (let c := Demo.call (Demo.answering (Demo.reply 200 "text/plain" ""))
              (Some "key") (PInt (-1)) (Some "{bad json") in
   fails_with c ("Error: Invalid JSON in Director Tools field: "
                 ++ exn_msg Demo.bad_json_error)
   /\ no_request c)
  /\
  (let c := Demo.call (Demo.answering (Demo.reply 200 "text/plain" ""))
              (Some "key") (PInt (-1)) (Some "[1,2]") in
   fails_with c "Error: Director Tools JSON must decode to a dictionary (object)."
   /\ no_request c).
Proof.
  split.
  - apply (proj1 (invalid_director_json_no_request
                    (Demo.answering (Demo.reply 200 "text/plain" ""))
                    (Some "key") "1girl" "lowres" 832 1216 (PInt 28)
                    (PFloat Demo.six) "k_euler_ancestral" (PInt (-1))
                    "{bad json" eq_refl eq_refl)
                 Demo.bad_json_error eq_refl eq_refl).
  - apply (proj1 (proj2 (invalid_director_json_no_request
                    (Demo.answering (Demo.reply 200 "text/plain" ""))
                    (Some "key") "1girl" "lowres" 832 1216 (PInt 28)
                    (PFloat Demo.six) "k_euler_ancestral" (PInt (-1))
                    "[1,2]" eq_refl eq_refl))
                 (JArr [JInt 1; JInt 2]) eq_refl).
    discriminate.
Defined.

(** C4 does not hold of the code.  A Director Tools text nested too
    deep is malformed or not, [json.loads] raises [RecursionError] on
    it all the same; that is no [ValueError], so neither [except]
    clause of lines 43-46 takes it: the exception leaves the helper,
    against the docstring, and the caller gets no error result. *)
Theorem deep_director_json_raises (W : World) (api_key : option string)
    (prompt neg_prompt : string) (width height : Z) (steps scale : pyval)
    (sampler : string) (seed : pyval) (s msg : string) :
  truthy api_key = true ->
  truthy (Some (strip s)) = true ->
  json_loads W s = inl (mk_exn RecursionError msg) ->
  let c := call_novelai_api W api_key prompt neg_prompt width height steps
             scale sampler seed (Some s) in
  completes c = Raised (mk_exn RecursionError msg) /\ trace c = [].
Proof.
  intros Hk Hs Hl c. subst c.
  unfold call_novelai_api, prepare_payload, parse_director_tools.
  rewrite Hk, (strip_truthy _ Hs). simpl fmap. rewrite Hs. simpl.
  rewrite Hl. split; reflexivity.
Qed.

Lemma deep_director_json_raises_witness :
  let c := Demo.call Cases.silent (Some "key") (PInt (-1)) (Some Cases.deep) in
  completes c = Raised Cases.recursion_error /\ trace c = [].
Proof.
  exact (deep_director_json_raises Cases.silent (Some "key") "1girl" "lowres"
           832 1216 (PInt 28) (PFloat Demo.six) "k_euler_ancestral" (PInt (-1))
           Cases.deep
           "maximum recursion depth exceeded while decoding a JSON array from a unicode string"
           eq_refl eq_refl eq_refl).
Defined.

(** ** Where the POST can come from

    Nothing but the [post] of line 90 reaches the network: every other
    piece of the function only prints. *)

Create HintDb quiet.

Section NoRequest.
Context {R : Type}.

Lemma no_request_mret {A} (a : A) : no_request (mret a : py R A).
Proof. reflexivity. Qed.

Lemma no_request_ret {A} (r : R) : no_request (ret_ r : py R A).
Proof. reflexivity. Qed.

Lemma no_request_raise {A} (e : exn) : no_request (raise e : py R A).
Proof. reflexivity. Qed.

Lemma no_request_print (line : string) : no_request (print line : py R unit).
Proof. reflexivity. Qed.

Lemma no_request_lift {A} (x : exn + A) : no_request (lift x : py R A).
Proof. destruct x; reflexivity. Qed.

Lemma no_request_bind {A B} (m : py R A) (k : A -> py R B) :
  no_request m -> (forall a, no_request (k a)) -> no_request (m ≫= k).
Proof.
  unfold no_request, mbind, py_bind. intros Hm Hk.
  destruct (outcome m); simpl; [|assumption..].
  rewrite posts_app, Hm, Hk. reflexivity.
Qed.

Lemma no_request_try {A} (body : py R A) (handler : exn -> option (py R A)) :
  no_request body ->
  (forall e h, handler e = Some h -> no_request h) ->
  no_request (try_except body handler).
Proof.
  unfold no_request, try_except. intros Hb Hh.
  destruct (outcome body) as [a|r|e]; [assumption..|].
  destruct (handler e) as [h|] eqn:E; [|assumption].
  simpl. rewrite posts_app, Hb, (Hh _ _ E). reflexivity.
Qed.

End NoRequest.

#[global] Hint Resolve no_request_mret no_request_ret no_request_raise
  no_request_print no_request_lift : quiet.

Ltac quiet :=
  repeat first
    [ apply no_request_bind; [|intros ?]
    | apply no_request_try; [|intros ? ? ?]
    | solve [auto with quiet] ].

Lemma no_request_parse_director_tools (W : World) (s : option string) :
  no_request (parse_director_tools W s).
Proof.
  unfold parse_director_tools.
  destruct (truthy s && truthy (strip <$> s)); [|reflexivity].
  quiet.
  - destruct a; auto with quiet.
  - destruct (isinstance e JSONDecodeError); [injection H as <-; reflexivity|].
    destruct (isinstance e ValueError); [injection H as <-; reflexivity|].
    discriminate.
Qed.

Lemma no_request_prepare_payload (W : World) api_key prompt neg_prompt
    width height steps scale sampler seed director_json_str :
  no_request (prepare_payload W api_key prompt neg_prompt width height steps
                scale sampler seed director_json_str).
Proof.
  unfold prepare_payload. destruct (negb (truthy api_key)); [reflexivity|].
  quiet. apply no_request_parse_director_tools.
Qed.

Lemma no_request_handle_response (W : World) (seed : pyval) (r : response) :
  no_request (handle_response W seed r).
Proof.
  unfold handle_response. quiet.
  - unfold raise_for_status.
    repeat match goal with |- context [if ?b then _ else _] => destruct b end;
      reflexivity.
  - unfold read_body. destruct (classify r); [reflexivity| | |reflexivity].
    + unfold read_event_stream.
      destruct (negb _); quiet.
      destruct (isinstance e Exception); [|discriminate].
      injection H as <-. reflexivity.
    + unfold read_json_body. quiet.
      destruct (isinstance e JSONDecodeError); [|discriminate].
      injection H as <-. reflexivity.
Qed.

Lemma no_request_on_http_error (W : World) (e : exn) :
  no_request (on_http_error W e).
Proof.
  unfold on_http_error. destruct (exn_response e) as [r|]; [|reflexivity].
  quiet.
  - destruct a; auto with quiet.
  - injection H as <-. reflexivity.
Qed.

Lemma no_request_on_exception (W : World) (e : exn) (h : py result Empty_set) :
  on_exception W e = Some h -> no_request h.
Proof.
  unfold on_exception.
  destruct (isinstance e Timeout); [intros [= <-]; reflexivity|].
  destruct (isinstance e HTTPError);
    [intros [= <-]; apply no_request_on_http_error|].
  destruct (isinstance e RequestException); [intros [= <-]; reflexivity|].
  destruct (isinstance e Exception); [intros [= <-]; reflexivity|].
  discriminate.
Qed.

Lemma posts_post (W : World) (req : request) :
  posts (trace (post W req : py result response)) = [req].
Proof. unfold post. destruct (requests_post W req); reflexivity. Qed.

(** Once the payload is there, the call makes exactly one request: the
    endpoint, the three headers and the payload as the body. *)
Lemma one_request (W : World) api_key prompt neg_prompt width height steps
    scale sampler seed director_json_str (body : payload) :
  outcome (prepare_payload W api_key prompt neg_prompt width height steps
             scale sampler seed director_json_str) = Next body ->
  posts (trace (call_novelai_api W api_key prompt neg_prompt width height
                  steps scale sampler seed director_json_str))
  = [nai_request api_key body].
Proof.
  intros H. unfold call_novelai_api. rewrite (bind_next _ _ _ H).
  cbn [trace]. rewrite posts_app, no_request_prepare_payload.
  cbn [app]. unfold try_except.
  set (b := post W (nai_request api_key body) ≫= handle_response W seed).
  assert (Hb : posts (trace b) = [nai_request api_key body]).
  { subst b. unfold mbind, py_bind.
    destruct (outcome (post W (nai_request api_key body))) as [r| |] eqn:E;
      cbn [trace]; [|apply posts_post..].
    rewrite posts_app, posts_post, no_request_handle_response. reflexivity. }
  destruct (outcome b) as [a|r|e]; [exact Hb..|].
  destruct (on_exception W e) as [h|] eqn:E; [|exact Hb].
  cbn [trace]. rewrite posts_app, Hb, (no_request_on_exception _ _ _ E).
  reflexivity.
Qed.

(** ** The merge of the Director Tools parameters *)

Lemma merge_director_lookup (p : payload) (d : gmap string json) (k : string) :
  p_parameters (merge_director p d) !! k
  = match d !! k with
    | Some v => Some v
    | None => p_parameters p !! k
    end.
Proof.
  unfold merge_director, dict_truthy, dict_update.
  destruct (bool_decide_reflect (d = ∅)) as [->|_]; simpl.
  - now rewrite lookup_empty.
  - destruct (d !! k) as [v|] eqn:E.
    + now apply lookup_union_Some_l.
    + now apply lookup_union_r.
Qed.

Lemma merge_director_top_level (p : payload) (d : gmap string json) :
  p_input (merge_director p d) = p_input p
  /\ p_model (merge_director p d) = p_model p
  /\ p_action (merge_director p d) = p_action p.
Proof. unfold merge_director. destruct (dict_truthy d); repeat split. Qed.

(** The payload that lines 27-86 build when nothing fails on the way. *)
Lemma prepare_payload_next (W : World) (api_key : option string)
    (prompt neg_prompt : string) (width height : Z) (steps scale : pyval)
    (sampler : string) (seed : pyval) (director_json_str : option string)
    (d : gmap string json) (a : Z) (b : spec_float) (c : Z) :
  truthy api_key = true ->
  parse_director_tools W director_json_str = Py [] (Next d) ->
  py_int steps = inr a -> py_float scale = inr b -> py_int seed = inr c ->
  let body :=
    merge_director
      (base_payload prompt neg_prompt width height a b sampler c) d in
  json_dumps_raises W (payload_json body) = None ->
  prepare_payload W api_key prompt neg_prompt width height steps scale
    sampler seed director_json_str
  = Py [Print "--- Sending Payload to NovelAI ---";
        Print (json_dumps W (payload_json body));
        Print "---------------------------------"]
       (Next body).
Proof.
  intros Hk Hd Ha Hb Hc body Hj. subst body. unfold prepare_payload, dumps.
  rewrite Hk, Hd, Ha, Hb, Hc. cbn [negb].
  unfold mbind, py_bind, lift, mret, py_ret, print.
  cbn [outcome trace app]. rewrite Hj. reflexivity.
Qed.

(** C2, as the code has it.  When the Director Tools text decodes to a
    dict [d] (the key is present, the three numbers convert and
    [json.dumps] takes the payload), the one request the call makes
    carries, in the [parameters] dict of its body, every key of [d] with
    the value [d] gives it, whatever the key is, a built-in one
    included; the keys [d] does not have keep their built-in values.
    The merge goes no further than [parameters]: the top-level fields
    [input], [model] and [action] of the body are the built-in ones. *)
Theorem director_overrides_reach_request (W : World) (api_key : option string)
    (prompt neg_prompt : string) (width height : Z) (steps scale : pyval)
    (sampler : string) (seed : pyval) (s : string)
    (d : gmap string json) (a : Z) (b : spec_float) (c : Z) :
  truthy api_key = true ->
  truthy (Some (strip s)) = true ->
  json_loads W s = inr (JObj d) ->
  py_int steps = inr a -> py_float scale = inr b -> py_int seed = inr c ->
  json_dumps_raises W
    (payload_json
       (merge_director
          (base_payload prompt neg_prompt width height a b sampler c) d))
  = None ->
  exists req,
    posts (trace (call_novelai_api W api_key prompt neg_prompt width height
                    steps scale sampler seed (Some s))) = [req]
    /\ (forall k v, d !! k = Some v ->
          p_parameters (req_json req) !! k = Some v)
    /\ (forall k, d !! k = None ->
          p_parameters (req_json req) !! k
          = p_parameters (base_payload prompt neg_prompt width height a b
                            sampler c) !! k)
    /\ p_input (req_json req) = JStr prompt
    /\ p_model (req_json req) = JStr "nai-diffusion-3"
    /\ p_action (req_json req) = JStr "generate".
Proof.
  intros Hk Hs Hd Ha Hb Hc Hj.
  pose proof (prepare_payload_next W api_key prompt neg_prompt width height
                steps scale sampler seed (Some s) d a b c Hk
                (parse_director_tools_dict W s d Hs Hd) Ha Hb Hc Hj) as Hp.
  eexists. split; [|split; [|split]].
  - apply one_request. rewrite Hp. reflexivity.
  - intros k v Hv. cbn [req_json nai_request].
    now rewrite merge_director_lookup, Hv.
  - intros k Hv. cbn [req_json nai_request].
    now rewrite merge_director_lookup, Hv.
  - cbn [req_json nai_request]. apply merge_director_top_level.
Qed.

Lemma director_overrides_reach_request_witness :
  exists req,
    posts (trace (Demo.call (Demo.answering (Demo.reply 200 "text/plain" ""))
                    (Some "key") (PInt (-1)) (Some Demo.seed_blob))) = [req]
    /\ p_parameters (req_json req) !! "seed" = Some (JInt 7)
    /\ p_parameters (req_json req) !! "input" = Some (JInt 1)
    /\ p_parameters (req_json req) !! "steps" = Some (JInt 28)
    /\ p_input (req_json req) = JStr "1girl".
Proof.
  destruct (director_overrides_reach_request
              (Demo.answering (Demo.reply 200 "text/plain" ""))
              (Some "key") "1girl" "lowres" 832 1216 (PInt 28)
              (PFloat Demo.six) "k_euler_ancestral" (PInt (-1)) Demo.seed_blob
              (<["seed" := JInt 7]> {["input" := JInt 1]}) 28 Demo.six (-1)
              eq_refl eq_refl eq_refl eq_refl eq_refl eq_refl eq_refl)
    as (req & Hreq & Hin & Hout & Htop & _).
  exists req. split; [exact Hreq|]. split; [|split; [|split]].
  - apply Hin. reflexivity.
  - apply Hin. reflexivity.
  - rewrite Hout; reflexivity.
  - exact Htop.
Defined.

(** C2 as stated fails in its last clause: a Director Tools dict with
    the key [input] does not shadow the [input] field of the request
    body; the key lands under [parameters] and the prompt is sent as
    it was. *)
Lemma override_named_input_leaves_prompt :
  posts (trace (Demo.call (Demo.answering (Demo.reply 200 "text/plain" ""))
                  (Some "key") (PInt (-1)) (Some Demo.seed_blob)))
  = [nai_request (Some "key")
       (merge_director
          (base_payload "1girl" "lowres" 832 1216 28 Demo.six
             "k_euler_ancestral" (-1))
          (<["seed" := JInt 7]> {["input" := JInt 1]}))]
  /\ Demo.loads Demo.seed_blob
     = inr (JObj (<["seed" := JInt 7]> {["input" := JInt 1]}))
  /\ p_input
       (merge_director
          (base_payload "1girl" "lowres" 832 1216 28 Demo.six
             "k_euler_ancestral" (-1))
          (<["seed" := JInt 7]> {["input" := JInt 1]}))
     = JStr "1girl"
  /\ p_parameters
       (merge_director
          (base_payload "1girl" "lowres" 832 1216 28 Demo.six
             "k_euler_ancestral" (-1))
          (<["seed" := JInt 7]> {["input" := JInt 1]})) !! "input"
     = Some (JInt 1).
Proof. repeat split; vm_compute; reflexivity. Qed.

(** The merge stays inside [parameters]: the three top-level fields of
    the body are the built-in ones whatever the Director Tools dict has. *)
Lemma director_overrides_leave_top_level (W : World) (api_key : option string)
    (prompt neg_prompt : string) (width height : Z) (steps scale : pyval)
    (sampler : string) (seed : pyval) (director_json_str : option string)
    (req : request) :
  req ∈ posts (trace (call_novelai_api W api_key prompt neg_prompt width
                        height steps scale sampler seed director_json_str)) ->
  p_input (req_json req) = JStr prompt
  /\ p_model (req_json req) = JStr "nai-diffusion-3"
  /\ p_action (req_json req) = JStr "generate".
Proof.
  intros Hin.
  destruct (outcome (prepare_payload W api_key prompt neg_prompt width height
                       steps scale sampler seed director_json_str))
    as [body|r|e] eqn:E.
  - rewrite (one_request _ _ _ _ _ _ _ _ _ _ _ _ E) in Hin.
    apply list_elem_of_singleton in Hin as ->. cbn [req_json nai_request].
    revert E. unfold prepare_payload.
    destruct (negb (truthy api_key)); [discriminate|].
    unfold mbind, py_bind.
    destruct (outcome (parse_director_tools W director_json_str));
      [|discriminate..].
    destruct (py_int steps); [discriminate|].
    destruct (py_float scale); [discriminate|].
    destruct (py_int seed); [discriminate|].
    unfold dumps, lift, mret, py_ret, print. cbn [outcome trace].
    match goal with
    | |- context [json_dumps_raises W ?v] => destruct (json_dumps_raises W v)
    end; cbn [outcome trace]; [discriminate|].
    intros [= <-]. apply merge_director_top_level.
  - exfalso. unfold call_novelai_api in Hin.
    rewrite (bind_return _ _ _ E) in Hin. cbn [trace] in Hin.
    rewrite no_request_prepare_payload in Hin. inversion Hin.
  - exfalso. unfold call_novelai_api in Hin.
    rewrite (bind_raise _ _ _ E) in Hin. cbn [trace] in Hin.
    rewrite no_request_prepare_payload in Hin. inversion Hin.
Qed.

(** ** From the request to the response *)

Lemma raise_for_status_passes {R} (r : response) :
  status_passes r = true -> raise_for_status r = (mret tt : py R unit).
Proof.
  unfold status_passes, raise_for_status. intros H.
  destruct (400 <=? status_code r) eqn:E1; simpl in *.
  - destruct (status_code r <? 600) eqn:E2; [discriminate|].
    destruct (status_code r <? 500) eqn:E3; [lia|].
    destruct (500 <=? status_code r); reflexivity.
  - destruct (500 <=? status_code r) eqn:E3; [lia|reflexivity].
Qed.

Lemma status_2xx_passes (r : response) :
  200 <= status_code r < 300 -> status_passes r = true.
Proof.
  intros H. unfold status_passes.
  destruct (400 <=? status_code r) eqn:E; [lia|reflexivity].
Qed.

Lemma raise_for_status_fails {R} (r : response) :
  400 <= status_code r < 600 ->
  raise_for_status r = (raise (http_error_of r) : py R unit).
Proof.
  intros H. unfold raise_for_status, http_error_of.
  destruct (400 <=? status_code r) eqn:E1; [|lia].
  destruct (status_code r <? 500) eqn:E2; simpl; [reflexivity|].
  destruct (500 <=? status_code r) eqn:E3; [|lia].
  destruct (status_code r <? 600) eqn:E4; [|lia]. reflexivity.
Qed.

Lemma post_bind {A} (W : World) (req : request) (k : response -> py result A) :
  post W req ≫= k
  = Py (Post req :: trace (lift (requests_post W req) ≫= k))
       (outcome (lift (requests_post W req) ≫= k)).
Proof.
  unfold post. destruct (requests_post W req) as [e|r]; [reflexivity|].
  unfold mbind, py_bind, lift, mret, py_ret. cbn [outcome trace app].
  reflexivity.
Qed.

Lemma try_except_prefix {R A} (ev : event) (m : py R A) h :
  try_except (Py (ev :: trace m) (outcome m)) h
  = Py (ev :: trace (try_except m h)) (outcome (try_except m h)).
Proof.
  destruct m as [t [a|r|e]]; unfold try_except; cbn [outcome trace];
    try reflexivity.
  destruct (h e); reflexivity.
Qed.

(** The call, cut at the POST: what ran before, the request, what ran
    after. *)
Lemma call_novelai_api_cut (W : World) api_key prompt neg_prompt width height
    steps scale sampler seed director_json_str (body : payload) :
  let prep := prepare_payload W api_key prompt neg_prompt width height steps
                scale sampler seed director_json_str in
  let req := nai_request api_key body in
  let rest := after_post W seed (requests_post W req) in
  outcome prep = Next body ->
  call_novelai_api W api_key prompt neg_prompt width height steps scale
    sampler seed director_json_str
  = Py (trace prep ++ Post req :: trace rest) (outcome rest).
Proof.
  intros prep req rest H. unfold call_novelai_api.
  fold prep. rewrite (bind_next _ _ _ H). fold req.
  rewrite post_bind, try_except_prefix. reflexivity.
Qed.

Lemma completes_call (W : World) api_key prompt neg_prompt width height
    steps scale sampler seed director_json_str (body : payload) :
  outcome (prepare_payload W api_key prompt neg_prompt width height steps
             scale sampler seed director_json_str) = Next body ->
  completes (call_novelai_api W api_key prompt neg_prompt width height steps
               scale sampler seed director_json_str)
  = completes (after_post W seed
                 (requests_post W (nai_request api_key body))).
Proof.
  intros H. rewrite (call_novelai_api_cut _ _ _ _ _ _ _ _ _ _ _ _ H).
  reflexivity.
Qed.

(** After a status that passes, the branch of the chain decides. *)
Lemma handle_response_passes (W : World) (seed : pyval) (r : response) :
  status_passes r = true ->
  handle_response W seed r
  = Py (Print ("NovelAI Response Status Code: " ++ of_int (status_code r))
        :: trace (read_body W seed r))
       (outcome (read_body W seed r)).
Proof.
  intros H. unfold handle_response. rewrite (raise_for_status_passes _ H).
  reflexivity.
Qed.

(** A response with a passing status whose branch ends in [return]: the
    call returns that value. *)
Lemma completes_after_post_return (W : World) (seed : pyval) (r : response)
    (x : result) :
  status_passes r = true ->
  outcome (read_body W seed r) = Return x ->
  completes (after_post W seed (inr r)) = Returned x.
Proof.
  intros Hs Hx. unfold after_post, lift.
  assert (E : outcome (mret r ≫= handle_response W seed) = Return x).
  { unfold mbind, py_bind, mret, py_ret. cbn [outcome].
    rewrite (handle_response_passes _ _ _ Hs). exact Hx. }
  rewrite (try_except_return _ _ _ E). unfold completes. now rewrite E.
Qed.

(** ** The event stream *)

Lemma classify_event_stream (r : response) :
  contains "application/zip" (content_type_of r) = false ->
  contains "text/event-stream" (content_type_of r)
  || startswith (strip (text r)) "event:" = true ->
  classify r = EventStream.
Proof. intros Hz He. unfold classify. cbv zeta. now rewrite Hz, He. Qed.




Lemma isinstance_Exception (e : exn) : isinstance e Exception = true.
Proof. destruct e as [c m r]. destruct c; reflexivity. Qed.

Lemma read_event_stream_no_data (W : World) (seed : pyval) (r : response) :
  truthy (find_b64_data (split_lines (strip (text r)))) = false ->
  outcome (read_event_stream W seed r)
  = Return (None, "Error: Could not parse image data from NovelAI stream. Status: "
                  ++ of_int (status_code r)).
Proof.
  intros H. unfold read_event_stream. cbv zeta. rewrite H. reflexivity.
Qed.

Lemma read_event_stream_decode_error (W : World) (seed : pyval) (r : response)
    (b64 : string) (e : exn) :
  find_b64_data (split_lines (strip (text r))) = Some b64 ->
  truthy (Some b64) = true ->
  (b64decode W b64 = inl e
   \/ exists bytes, b64decode W b64 = inr bytes /\ image_open W bytes = inl e) ->
  outcome (read_event_stream W seed r)
  = Return (None, "Error decoding image data from NovelAI: " ++ exn_msg e).
Proof.
  intros Hf Ht H. unfold read_event_stream. cbv zeta.
  rewrite Hf, Ht. cbn [negb opt_str].
  destruct H as [Hd | (bytes & Hd & Hi)]; rewrite Hd.
  - unfold try_except, lift, raise, mbind, py_bind. cbn [outcome trace].
    rewrite isinstance_Exception. reflexivity.
  - unfold try_except, lift, raise, mbind, py_bind, mret, py_ret.
    cbn [outcome trace]. rewrite Hi. cbn [outcome trace].
    rewrite isinstance_Exception. reflexivity.
Qed.

(** C6, as the code has it.  A 2xx response on the event-stream branch:
    when no line starts with [data:], or the first such line carries
    nothing, the call returns no image and a message that ends with the
    status code; when [b64decode] or [Image.open] raises [e], the call
    returns no image and a message that carries [str(e)], and no status
    code of its own. *)
Theorem event_stream_failures (W : World) (api_key : option string)
    (prompt neg_prompt : string) (width height : Z) (steps scale : pyval)
    (sampler : string) (seed : pyval) (director_json_str : option string)
    (body : payload) (r : response) :
  outcome (prepare_payload W api_key prompt neg_prompt width height steps
             scale sampler seed director_json_str) = Next body ->
  requests_post W (nai_request api_key body) = inr r ->
  200 <= status_code r < 300 ->
  contains "application/zip" (content_type_of r) = false ->
  contains "text/event-stream" (content_type_of r)
  || startswith (strip (text r)) "event:" = true ->
  let c := call_novelai_api W api_key prompt neg_prompt width height steps
             scale sampler seed director_json_str in
  let found := find_b64_data (split_lines (strip (text r))) in
  (truthy found = false ->
     exists msg, fails_with c msg /\ includes msg (of_int (status_code r))
       /\ msg = "Error: Could not parse image data from NovelAI stream. Status: "
                ++ of_int (status_code r))
  /\ (forall b64 e, found = Some b64 -> truthy (Some b64) = true ->
        (b64decode W b64 = inl e
         \/ exists bytes, b64decode W b64 = inr bytes
                          /\ image_open W bytes = inl e) ->
        fails_with c ("Error decoding image data from NovelAI: " ++ exn_msg e)).
Proof.
  intros Hp Hr Hs Hz He c found. subst c found. unfold fails_with.
  rewrite (completes_call _ _ _ _ _ _ _ _ _ _ _ _ Hp), Hr. split.
  - intros Hn. eexists. split; [|split; [|reflexivity]].
    + apply completes_after_post_return; [now apply status_2xx_passes|].
      unfold read_body. rewrite (classify_event_stream _ Hz He).
      now apply read_event_stream_no_data.
    + apply includes_app_r, includes_refl.
  - intros b64 e Hf Ht Hd.
    apply completes_after_post_return; [now apply status_2xx_passes|].
    unfold read_body. rewrite (classify_event_stream _ Hz He).
    now apply (read_event_stream_decode_error W seed r b64 e).
Qed.

Lemma event_stream_failures_witness :
  (exists msg,
     fails_with
       (Demo.call
          (Demo.answering (Demo.reply 200 "text/event-stream" "event: ping"))
          (Some "key") (PInt (-1)) None) msg
     /\ includes msg (of_int 200)
     /\ msg = "Error: Could not parse image data from NovelAI stream. Status: "
              ++ of_int 200)
  /\ fails_with
       (Demo.call
          (Demo.answering (Demo.reply 200 "text/event-stream" "data: QUJD"))
          (Some "key") (PInt (-1)) None)
       "Error decoding image data from NovelAI: cannot identify image file".
Proof.
  split.
  - refine (proj1 (event_stream_failures
                     (Demo.answering
                        (Demo.reply 200 "text/event-stream" "event: ping"))
                     (Some "key") "1girl" "lowres" 832 1216 (PInt 28)
                     (PFloat Demo.six) "k_euler_ancestral" (PInt (-1)) None
                     (base_payload "1girl" "lowres" 832 1216 28 Demo.six
                        "k_euler_ancestral" (-1))
                     _ eq_refl eq_refl _ eq_refl eq_refl) eq_refl).
    cbn. lia.
  - refine (proj2 (event_stream_failures
                     (Demo.answering
                        (Demo.reply 200 "text/event-stream" "data: QUJD"))
                     (Some "key") "1girl" "lowres" 832 1216 (PInt 28)
                     (PFloat Demo.six) "k_euler_ancestral" (PInt (-1)) None
                     (base_payload "1girl" "lowres" 832 1216 28 Demo.six
                        "k_euler_ancestral" (-1))
                     _ eq_refl eq_refl _ eq_refl eq_refl)
                  "QUJD"
                  (mk_exn UnidentifiedImageError "cannot identify image file")
                  eq_refl eq_refl _).
    + cbn. lia.
    + right. exists [x41; x42; x43]. split; reflexivity.
Defined.

(** C6 as stated fails: a 2xx event stream whose [data:] text does not
    decode gives a message without the status code. *)
Lemma event_stream_decode_error_omits_status :
  completes
    (Demo.call
       (Demo.answering (Demo.reply 200 "text/event-stream" "data: @@@"))
       (Some "key") (PInt (-1)) None)
  = Returned (None, "Error decoding image data from NovelAI: Incorrect padding")
  /\ contains (of_int 200)
       "Error decoding image data from NovelAI: Incorrect padding" = false.
Proof. split; vm_compute; reflexivity. Qed.

(** ** HTTP errors *)







(** ** The branches that are not implemented *)

Lemma timeout_is_request_exception (e : exn) :
  isinstance e Timeout = true -> isinstance e RequestException = true.
Proof. destruct e as [c m r]. destruct c; (discriminate || reflexivity). Qed.

Lemma http_error_is_request_exception (e : exn) :
  isinstance e HTTPError = true -> isinstance e RequestException = true.
Proof. destruct e as [c m r]. destruct c; (discriminate || reflexivity). Qed.

(** A response with a passing status whose branch raises: the [except]
    clause that takes the exception decides. *)
Lemma completes_after_post_raise (W : World) (seed : pyval) (r : response)
    (e : exn) (h : py result Empty_set) :
  status_passes r = true ->
  outcome (read_body W seed r) = Raise e ->
  on_exception W e = Some h ->
  completes (after_post W seed (inr r)) = completes h.
Proof.
  intros Hs He Hh. unfold after_post, lift.
  assert (E : outcome (mret r ≫= handle_response W seed) = Raise e).
  { unfold mbind, py_bind, mret, py_ret. cbn [outcome].
    rewrite (handle_response_passes _ _ _ Hs). exact He. }
  rewrite (try_except_caught _ _ _ _ E Hh). reflexivity.
Qed.

Lemma read_json_body_other_error (W : World) (r : response) (e : exn) :
  json_loads W (text r) = inl e ->
  isinstance e JSONDecodeError = false ->
  outcome (read_json_body W r) = Raise e.
Proof.
  intros H He. unfold read_json_body, response_json. rewrite H, He.
  unfold try_except, lift, raise, mbind, py_bind. cbn [outcome trace].
  now rewrite He.
Qed.

Lemma classify_json_body (r : response) :
  contains "application/zip" (content_type_of r) = false ->
  contains "text/event-stream" (content_type_of r)
  || startswith (strip (text r)) "event:" = false ->
  contains "application/json" (content_type_of r) = true ->
  classify r = JsonBody.
Proof. intros Hz He Hj. unfold classify. cbv zeta. now rewrite Hz, He, Hj. Qed.

Lemma read_json_body_decoded (W : World) (r : response) (v : json) :
  json_loads W (text r) = inr v ->
  outcome (read_json_body W r) = Return (None, json_not_implemented).
Proof.
  intros H. unfold read_json_body, response_json. rewrite H. reflexivity.
Qed.

Lemma read_json_body_malformed (W : World) (r : response) (e : exn) :
  json_loads W (text r) = inl e ->
  isinstance e JSONDecodeError = true ->
  outcome (read_json_body W r)
  = Return (None, "Error: Failed to decode JSON response. Status: "
                  ++ of_int (status_code r) ++ ", Content: "
                  ++ slice_to 200 (text r)).
Proof.
  intros H He. unfold read_json_body, response_json. rewrite H, He.
  reflexivity.
Qed.

(** C8, as the code has it.  For a 2xx response: a content type that
    names [application/zip] gives the zip "not implemented" message; a
    content type that names [application/json], on a response that is
    neither taken for a zip archive nor for an event stream, gives the
    JSON "not implemented" message when the body decodes; when decoding
    raises a [JSONDecodeError], the decode failure message with the
    status code and the start of the body; when decoding raises
    anything else that is no [requests] exception (a [RecursionError]
    on a body nested too deep), the catch-all's [Unexpected Error: ]
    with the text of the exception; no image in any of these cases.
    The two "not implemented" messages differ from each other and from
    every "unexpected content type" message. *)
Theorem unsupported_formats_reported (W : World) (api_key : option string)
    (prompt neg_prompt : string) (width height : Z) (steps scale : pyval)
    (sampler : string) (seed : pyval) (director_json_str : option string)
    (body : payload) (r : response) :
  outcome (prepare_payload W api_key prompt neg_prompt width height steps
             scale sampler seed director_json_str) = Next body ->
  requests_post W (nai_request api_key body) = inr r ->
  200 <= status_code r < 300 ->
  let c := call_novelai_api W api_key prompt neg_prompt width height steps
             scale sampler seed director_json_str in
  let content_type := content_type_of r in
  (contains "application/zip" content_type = true ->
     fails_with c zip_not_implemented)
  /\ (contains "application/zip" content_type = false ->
      contains "text/event-stream" content_type
      || startswith (strip (text r)) "event:" = false ->
      contains "application/json" content_type = true ->
      (forall v, json_loads W (text r) = inr v ->
         fails_with c json_not_implemented)
      /\ (forall e, json_loads W (text r) = inl e ->
            isinstance e JSONDecodeError = true ->
            fails_with c ("Error: Failed to decode JSON response. Status: "
                          ++ of_int (status_code r) ++ ", Content: "
                          ++ slice_to 200 (text r)))
      /\ (forall e, json_loads W (text r) = inl e ->
            isinstance e JSONDecodeError = false ->
            isinstance e RequestException = false ->
            fails_with c ("Unexpected Error: " ++ exn_msg e)))
  /\ zip_not_implemented <> json_not_implemented
  /\ (forall ct st,
        unexpected_content_type ct st <> zip_not_implemented
        /\ unexpected_content_type ct st <> json_not_implemented).
Proof.
  intros Hp Hr Hs c content_type. subst c content_type. unfold fails_with.
  rewrite (completes_call _ _ _ _ _ _ _ _ _ _ _ _ Hp), Hr.
  pose proof (status_2xx_passes r Hs) as Hok.
  split; [|split; [|split]].
  - intros Hz. apply completes_after_post_return; [exact Hok|].
    unfold read_body, classify. cbv zeta. rewrite Hz. reflexivity.
  - intros Hz He Hj. split; [|split].
    + intros v Hv. apply completes_after_post_return; [exact Hok|].
      unfold read_body. rewrite (classify_json_body _ Hz He Hj).
      now apply (read_json_body_decoded W r v).
    + intros e Hl Hi. apply completes_after_post_return; [exact Hok|].
      unfold read_body. rewrite (classify_json_body _ Hz He Hj).
      now apply (read_json_body_malformed W r e).
    + intros e Hl Hi Hq.
      assert (Ht : isinstance e Timeout = false).
      { destruct (isinstance e Timeout) eqn:E; [|reflexivity].
        now rewrite (timeout_is_request_exception e E) in Hq. }
      assert (Hh : isinstance e HTTPError = false).
      { destruct (isinstance e HTTPError) eqn:E; [|reflexivity].
        now rewrite (http_error_is_request_exception e E) in Hq. }
      rewrite (completes_after_post_raise W seed r e
                 (print "!!! Unexpected Error in call_novelai_api !!!";;
                  print (format_exc W e);;
                  ret_ (None, "Unexpected Error: " ++ exn_msg e)) Hok).
      * reflexivity.
      * unfold read_body. rewrite (classify_json_body _ Hz He Hj).
        now apply read_json_body_other_error.
      * unfold on_exception. now rewrite Ht, Hh, Hq, isinstance_Exception.
  - discriminate.
  - intros ct st. split; intros H; cbv in H; discriminate H.
Qed.

Lemma unsupported_formats_reported_witness :
  fails_with
    (Demo.call (Demo.answering (Demo.reply 200 "application/zip" "PK"))
       (Some "key") (PInt (-1)) None)
    zip_not_implemented
  /\ fails_with
       (Demo.call
          (Demo.answering (Demo.reply 200 "application/json" Demo.code_body))
          (Some "key") (PInt (-1)) None)
       json_not_implemented
  /\ fails_with
       (Demo.call
          (Cases.world
             (fun _ => inr (Demo.reply 200 "application/json" Cases.deep)))
          (Some "key") (PInt (-1)) None)
       ("Unexpected Error: " ++ exn_msg Cases.recursion_error).
Proof.
  split; [|split].
  - refine (proj1 (unsupported_formats_reported
                     (Demo.answering (Demo.reply 200 "application/zip" "PK"))
                     (Some "key") "1girl" "lowres" 832 1216 (PInt 28)
                     (PFloat Demo.six) "k_euler_ancestral" (PInt (-1)) None
                     (base_payload "1girl" "lowres" 832 1216 28 Demo.six
                        "k_euler_ancestral" (-1))
                     _ eq_refl eq_refl ltac:(cbn; lia)) eq_refl).
  - refine (proj1 (proj1 (proj2 (unsupported_formats_reported
                     (Demo.answering
                        (Demo.reply 200 "application/json" Demo.code_body))
                     (Some "key") "1girl" "lowres" 832 1216 (PInt 28)
                     (PFloat Demo.six) "k_euler_ancestral" (PInt (-1)) None
                     (base_payload "1girl" "lowres" 832 1216 28 Demo.six
                        "k_euler_ancestral" (-1))
                     _ eq_refl eq_refl ltac:(cbn; lia)))
                   eq_refl eq_refl eq_refl)
                  (JObj {["code" := JInt 7]}) eq_refl).
  - refine (proj2 (proj2 (proj1 (proj2 (unsupported_formats_reported
                     (Cases.world
                        (fun _ => inr (Demo.reply 200 "application/json"
                                         Cases.deep)))
                     (Some "key") "1girl" "lowres" 832 1216 (PInt 28)
                     (PFloat Demo.six) "k_euler_ancestral" (PInt (-1)) None
                     (base_payload "1girl" "lowres" 832 1216 28 Demo.six
                        "k_euler_ancestral" (-1))
                     _ eq_refl eq_refl ltac:(cbn; lia)))
                   eq_refl eq_refl eq_refl))
                  Cases.recursion_error eq_refl eq_refl eq_refl).
Defined.

(** C8 as stated fails: a 2xx response that declares JSON and whose body
    is not JSON gets the decode failure message, not "not implemented". *)
Lemma json_type_with_malformed_body :
  completes
    (Demo.call (Demo.answering (Demo.reply 200 "application/json" "oops"))
       (Some "key") (PInt (-1)) None)
  = Returned (None, "Error: Failed to decode JSON response. Status: 200, Content: oops")
  /\ String.eqb
       "Error: Failed to decode JSON response. Status: 200, Content: oops"
       json_not_implemented = false.
Proof. split; vm_compute; reflexivity. Qed.

(** ** The API key and the console *)

(** Before the POST the key is only tested for being there. *)
Lemma prepare_payload_any_key (W : World) (k1 k2 : option string)
    prompt neg_prompt width height steps scale sampler seed director_json_str :
  truthy k1 = true -> truthy k2 = true ->
  prepare_payload W k1 prompt neg_prompt width height steps scale sampler
    seed director_json_str
  = prepare_payload W k2 prompt neg_prompt width height steps scale sampler
      seed director_json_str.
Proof. intros H1 H2. unfold prepare_payload. now rewrite H1, H2. Qed.

(** What holds of C9 in the code.  Two calls that differ only in their
    (non-empty) API key, [requests.post] returning or raising the same
    for both: the lines printed to the console are the same, line for
    line, and so is what the call returns or raises.  So the key can
    reach the console only through what [requests.post] hands back. *)
Theorem console_independent_of_api_key (W : World) (k1 k2 : option string)
    (prompt neg_prompt : string) (width height : Z) (steps scale : pyval)
    (sampler : string) (seed : pyval) (director_json_str : option string) :
  truthy k1 = true -> truthy k2 = true ->
  (forall body,
     requests_post W (nai_request k1 body)
     = requests_post W (nai_request k2 body)) ->
  let c1 := call_novelai_api W k1 prompt neg_prompt width height steps scale
              sampler seed director_json_str in
  let c2 := call_novelai_api W k2 prompt neg_prompt width height steps scale
              sampler seed director_json_str in
  prints (trace c1) = prints (trace c2) /\ completes c1 = completes c2.
Proof.
  intros H1 H2 Hsame c1 c2. subst c1 c2.
  pose proof (prepare_payload_any_key W k1 k2 prompt neg_prompt width height
                steps scale sampler seed director_json_str H1 H2) as Hprep.
  destruct (outcome (prepare_payload W k1 prompt neg_prompt width height
                       steps scale sampler seed director_json_str))
    as [body|r|e] eqn:E.
  - pose proof E as E2. rewrite Hprep in E2.
    rewrite (call_novelai_api_cut _ _ _ _ _ _ _ _ _ _ _ _ E).
    rewrite (call_novelai_api_cut _ _ _ _ _ _ _ _ _ _ _ _ E2).
    rewrite Hprep, (Hsame body). cbn [trace].
    rewrite !prints_app. split; reflexivity.
  - pose proof E as E2. rewrite Hprep in E2. unfold call_novelai_api.
    rewrite (bind_return _ _ _ E), (bind_return _ _ _ E2), Hprep.
    split; reflexivity.
  - pose proof E as E2. rewrite Hprep in E2. unfold call_novelai_api.
    rewrite (bind_raise _ _ _ E), (bind_raise _ _ _ E2), Hprep.
    split; reflexivity.
Qed.

Lemma console_independent_of_api_key_witness :
  let W := Demo.answering (Demo.reply 401 "application/json" Demo.bad_key_body) in
  prints (trace (Demo.call W (Some "key-one") (PInt (-1)) None))
  = prints (trace (Demo.call W (Some "another key") (PInt (-1)) None))
  /\ completes (Demo.call W (Some "key-one") (PInt (-1)) None)
     = completes (Demo.call W (Some "another key") (PInt (-1)) None).
Proof.
  exact (console_independent_of_api_key
           (Demo.answering
              (Demo.reply 401 "application/json" Demo.bad_key_body))
           (Some "key-one") (Some "another key") "1girl" "lowres" 832 1216
           (PInt 28) (PFloat Demo.six) "k_euler_ancestral" (PInt (-1)) None
           eq_refl eq_refl (fun _ => eq_refl)).
Defined.

(** C9 does not hold of the code.  Two calls that differ only in the
    API key, against a service that answers every request alike: with
    a key that has a line feed in it, [requests] refuses the header
    with an [InvalidHeader] whose text quotes the header value, and
    line 167 prints that text: the console of the two calls differs,
    and one of them shows the key. *)
Theorem api_key_reaches_console :
  let W := Cases.checking (Demo.reply 200 "text/plain" "") in
  prints (trace (Demo.call W (Some ("ab" ++ nl ++ "cd")) (PInt (-1)) None))
  = ["--- Sending Payload to NovelAI ---";
     "{...}";
     "---------------------------------";
     "Network error calling NovelAI API: Invalid leading whitespace, reserved character(s), or return character(s) in header value: 'Bearer ab\ncd'"]
  /\ prints (trace (Demo.call W (Some "abcd") (PInt (-1)) None))
     = ["--- Sending Payload to NovelAI ---";
        "{...}";
        "---------------------------------";
        "NovelAI Response Status Code: 200"].
Proof. split; vm_compute; reflexivity. Qed.

(** ** [run] and the processing object *)

Lemma run_called_outcome (W : World) (p : processing.StableDiffusionProcessing)
    api_key steps sampler scale seed director_tools_json :
  let c := call_novelai_api W api_key (processing.prompt p)
             (processing.negative_prompt p) (processing.width p)
             (processing.height p) steps scale sampler seed
             director_tools_json in
  outcome ((print "NovelAI script: Enabled, attempting to override generation.";;
            invoke c) : py processing.Processed result)
  = match completes c with
    | Returned x => Next x
    | Raised e => Raise e
    end.
Proof. reflexivity. Qed.



(** An exception that leaves the helper leaves [run] as well, and the
    processing object is as it was. *)
Lemma run_propagates (W : World) (p : processing.StableDiffusionProcessing)
    (api_key : option string) (steps : pyval) (sampler : string)
    (scale seed : pyval) (director_tools_json : option string) (e : exn) :
  completes (call_novelai_api W api_key (processing.prompt p)
               (processing.negative_prompt p) (processing.width p)
               (processing.height p) steps scale sampler seed
               director_tools_json) = Raised e ->
  let on := run W p true api_key steps sampler scale seed director_tools_json in
  completes (run_py on) = Raised e /\ p_after on = p.
Proof.
  intros Hc on. subst on. unfold run. cbn [negb].
  match goal with |- context [outcome ?m] => set (called := m) end.
  assert (Hout : outcome called = Raise e).
  { subst called. rewrite run_called_outcome. now rewrite Hc. }
  rewrite Hout. cbn [p_after run_py]. split; [|reflexivity].
  unfold completes. reflexivity.
Qed.

(** ** The shape of what the helper hands back *)










Lemma handle_response_outcome (W : World) (seed : pyval) (r : response) :
  outcome (handle_response W seed r)
  = if status_passes r then outcome (read_body W seed r)
    else Raise (http_error_of r).
Proof.
  destruct (status_passes r) eqn:E.
  - now rewrite (handle_response_passes _ _ _ E).
  - unfold handle_response. rewrite raise_for_status_fails; [reflexivity|].
    unfold status_passes in E.
    destruct (400 <=? status_code r) eqn:E1;
      destruct (status_code r <? 600) eqn:E2; try discriminate; lia.
Qed.




(** C1 does not hold of the code.  With the seed field cleared (the
    [Number] component then delivers [None]) and everything else in
    order, [int(seed)] in the dict display of the payload raises
    [TypeError] before the [try] is entered: the call hands back no
    result at all, and nothing has been printed or sent. *)
Theorem cleared_seed_raises (W : World) :
  let c := call_novelai_api W (Some "key") "1girl" "lowres" 832 1216
             (PInt 28) (PFloat Demo.six) "k_euler_ancestral" PNone None in
  completes c
  = Raised (mk_exn TypeError
              "int() argument must be a string, a bytes-like object or a real number, not 'NoneType'")
  /\ trace c = [].
Proof. split; reflexivity. Qed.

(** ** The network failures, by example *)

Example timeout_reported :
  Demo.call (Demo.failing (mk_exn ReadTimeout "Read timed out. (read timeout=180)"))
    (Some "key") (PInt (-1)) None
  = Py [Print "--- Sending Payload to NovelAI ---";
        Print "{...}";
        Print "---------------------------------";
        Post (nai_request (Some "key")
                (base_payload "1girl" "lowres" 832 1216 28 Demo.six
                   "k_euler_ancestral" (-1)));
        Print "NovelAI request timed out."]
       (Return (None, "Error: Request to NovelAI timed out.")).
Proof. vm_compute. reflexivity. Qed.

Example connection_error_reported :
  completes
    (Demo.call (Demo.failing (mk_exn ConnectionError "Connection refused"))
       (Some "key") (PInt (-1)) None)
  = Returned (None, "Error: Network error connecting to NovelAI API: Connection refused").
Proof. vm_compute. reflexivity. Qed.

(** * More of the adapter *)

(** ** What is sent *)

Lemma parse_director_tools_trace (W : World) (s : option string) :
  trace (parse_director_tools W s) = [].
Proof.
  unfold parse_director_tools.
  destruct (truthy s && truthy (strip <$> s)); [|reflexivity].
  destruct (json_loads W (opt_str s)) as [e|v].
  - unfold try_except, lift, raise, mbind, py_bind. cbn [outcome trace].
    destruct (isinstance e JSONDecodeError); [reflexivity|].
    destruct (isinstance e ValueError); reflexivity.
  - destruct v; reflexivity.
Qed.

(** What a payload says about the way it was built. *)
Lemma prepare_payload_next_inv (W : World) (api_key : option string)
    (prompt neg_prompt : string) (width height : Z) (steps scale : pyval)
    (sampler : string) (seed : pyval) (director_json_str : option string)
    (body : payload) :
  let prep := prepare_payload W api_key prompt neg_prompt width height steps
                scale sampler seed director_json_str in
  outcome prep = Next body ->
  truthy api_key = true
  /\ exists d a b c,
       outcome (parse_director_tools W director_json_str) = Next d
       /\ py_int steps = inr a /\ py_float scale = inr b
       /\ py_int seed = inr c
       /\ body = merge_director
                   (base_payload prompt neg_prompt width height a b sampler c) d
       /\ trace prep
          = [Print "--- Sending Payload to NovelAI ---";
             Print (json_dumps W (payload_json body));
             Print "---------------------------------"]
       /\ json_dumps_raises W (payload_json body) = None.
Proof.
  intros prep. subst prep. unfold prepare_payload.
  destruct (truthy api_key); cbn [negb]; [|discriminate].
  pose proof (parse_director_tools_trace W director_json_str) as Ht.
  destruct (parse_director_tools W director_json_str) as [t [d|x|e]];
    cbn [trace] in Ht; subst t;
    unfold mbind at 1; unfold py_bind at 1; cbn [outcome trace];
    [|discriminate..].
  destruct (py_int steps) as [e|a]; [discriminate|].
  destruct (py_float scale) as [e|b]; [discriminate|].
  destruct (py_int seed) as [e|c]; [discriminate|].
  unfold dumps, mbind, py_bind, lift, mret, py_ret, print.
  cbn [outcome trace].
  match goal with
  | |- context [json_dumps_raises W ?v] =>
      destruct (json_dumps_raises W v) eqn:Ej
  end; cbn [outcome trace app]; [discriminate|].
  intros [= <-]. split; [reflexivity|].
  exists d, a, b, c. repeat split. exact Ej.
Qed.

(** X1. The helper never sends more than one request, whatever its
    arguments and whatever the libraries and the network do: nothing is
    retried. *)
Theorem at_most_one_request (W : World) (api_key : option string)
    (prompt neg_prompt : string) (width height : Z) (steps scale : pyval)
    (sampler : string) (seed : pyval) (director_json_str : option string) :
  (length (posts (trace (call_novelai_api W api_key prompt neg_prompt width
                           height steps scale sampler seed
                           director_json_str))) <= 1)%nat.
Proof.
  destruct (outcome (prepare_payload W api_key prompt neg_prompt width height
                       steps scale sampler seed director_json_str))
    as [body|r|e] eqn:E.
  - rewrite (one_request _ _ _ _ _ _ _ _ _ _ _ _ E). cbn. lia.
  - unfold call_novelai_api. rewrite (bind_return _ _ _ E). cbn [trace].
    rewrite no_request_prepare_payload. cbn. lia.
  - unfold call_novelai_api. rewrite (bind_raise _ _ _ E). cbn [trace].
    rewrite no_request_prepare_payload. cbn. lia.
Qed.

Lemma request_sent_inv (W : World) (api_key : option string)
    (prompt neg_prompt : string) (width height : Z) (steps scale : pyval)
    (sampler : string) (seed : pyval) (director_json_str : option string)
    (req : request) :
  req ∈ posts (trace (call_novelai_api W api_key prompt neg_prompt width
                        height steps scale sampler seed director_json_str)) ->
  exists body,
    outcome (prepare_payload W api_key prompt neg_prompt width height steps
               scale sampler seed director_json_str) = Next body
    /\ req = nai_request api_key body.
Proof.
  intros Hin.
  destruct (outcome (prepare_payload W api_key prompt neg_prompt width height
                       steps scale sampler seed director_json_str))
    as [body|r|e] eqn:E.
  - rewrite (one_request _ _ _ _ _ _ _ _ _ _ _ _ E) in Hin.
    apply list_elem_of_singleton in Hin. now exists body.
  - exfalso. unfold call_novelai_api in Hin.
    rewrite (bind_return _ _ _ E) in Hin. cbn [trace] in Hin.
    rewrite no_request_prepare_payload in Hin. inversion Hin.
  - exfalso. unfold call_novelai_api in Hin.
    rewrite (bind_raise _ _ _ E) in Hin. cbn [trace] in Hin.
    rewrite no_request_prepare_payload in Hin. inversion Hin.
Qed.

(** X2. Every request the helper sends goes to the fixed endpoint with a
    180 second timeout and exactly three headers: the bearer token made
    of the (then non-empty) API key, and the two JSON media types. *)
Theorem request_envelope (W : World) (api_key : option string)
    (prompt neg_prompt : string) (width height : Z) (steps scale : pyval)
    (sampler : string) (seed : pyval) (director_json_str : option string)
    (req : request) :
  req ∈ posts (trace (call_novelai_api W api_key prompt neg_prompt width
                        height steps scale sampler seed director_json_str)) ->
  exists k,
    api_key = Some k /\ k <> ""
    /\ req_url req = "https://api.novelai.net/ai/generate-image"
    /\ req_timeout req = 180
    /\ req_headers req
       = [("Authorization", "Bearer " ++ k);
          ("Content-Type", "application/json");
          ("accept", "application/json")].
Proof.
  intros Hin. destruct (request_sent_inv _ _ _ _ _ _ _ _ _ _ _ _ Hin)
    as (body & Hb & ->).
  destruct (prepare_payload_next_inv _ _ _ _ _ _ _ _ _ _ _ _ Hb) as [Hk _].
  destruct api_key as [[|c k]|]; try discriminate.
  exists (String c k). repeat split. discriminate.
Qed.

Lemma request_envelope_witness :
  exists k,
    Some "key" = Some k /\ k <> ""
    /\ req_url (nai_request (Some "key") Cases.plain_body)
       = "https://api.novelai.net/ai/generate-image"
    /\ req_timeout (nai_request (Some "key") Cases.plain_body) = 180
    /\ req_headers (nai_request (Some "key") Cases.plain_body)
       = [("Authorization", "Bearer " ++ k);
          ("Content-Type", "application/json");
          ("accept", "application/json")].
Proof.
  apply (request_envelope Cases.silent (Some "key") "1girl" "lowres" 832 1216
           (PInt 28) (PFloat Demo.six) "k_euler_ancestral" (PInt (-1)) None).
  vm_compute. apply list_elem_of_here.
Defined.

Lemma merge_director_empty (p : payload) : merge_director p ∅ = p.
Proof. reflexivity. Qed.

(** X3. A Director Tools field that is [None], empty or blank, or that
    decodes to the empty dict, changes nothing: when the numbers
    convert and [json.dumps] takes the built-in payload, the body of the
    one request is that payload, with [int(steps)], [float(scale)] and
    [int(seed)] as the numbers. *)
Theorem empty_director_tools_ignored (W : World) (api_key : option string)
    (prompt neg_prompt : string) (width height : Z) (steps scale : pyval)
    (sampler : string) (seed : pyval) (director_json_str : option string)
    (a : Z) (b : spec_float) (c : Z) :
  truthy api_key = true ->
  blank director_json_str = true
  \/ json_loads W (opt_str director_json_str) = inr (JObj ∅) ->
  py_int steps = inr a -> py_float scale = inr b -> py_int seed = inr c ->
  json_dumps_raises W
    (payload_json (base_payload prompt neg_prompt width height a b sampler c))
  = None ->
  posts (trace (call_novelai_api W api_key prompt neg_prompt width height
                  steps scale sampler seed director_json_str))
  = [nai_request api_key
       (base_payload prompt neg_prompt width height a b sampler c)].
Proof.
  intros Hk Hd Ha Hb Hc Hj. apply one_request.
  assert (Hp : parse_director_tools W director_json_str = Py [] (Next ∅)).
  { unfold parse_director_tools, blank in *.
    destruct (truthy director_json_str
              && truthy (strip <$> director_json_str)); [|reflexivity].
    destruct Hd as [Hd|Hd]; [discriminate|]. now rewrite Hd. }
  rewrite (prepare_payload_next W api_key prompt neg_prompt width height
             steps scale sampler seed director_json_str ∅ a b c Hk Hp Ha Hb Hc
             Hj).
  reflexivity.
Qed.

Lemma empty_director_tools_ignored_witness :
  posts (trace (Demo.call Cases.silent (Some "key") (PInt (-1)) (Some "   ")))
  = [nai_request (Some "key") Cases.plain_body]
  /\ posts (trace (Demo.call Cases.silent (Some "key") (PInt (-1)) (Some "{}")))
     = [nai_request (Some "key") Cases.plain_body].
Proof.
  split.
  - exact (empty_director_tools_ignored Cases.silent (Some "key") "1girl"
             "lowres" 832 1216 (PInt 28) (PFloat Demo.six) "k_euler_ancestral"
             (PInt (-1)) (Some "   ") 28 Demo.six (-1) eq_refl
             (or_introl eq_refl) eq_refl eq_refl eq_refl eq_refl).
  - exact (empty_director_tools_ignored Cases.silent (Some "key") "1girl"
             "lowres" 832 1216 (PInt 28) (PFloat Demo.six) "k_euler_ancestral"
             (PInt (-1)) (Some "{}") 28 Demo.six (-1) eq_refl
             (or_intror eq_refl) eq_refl eq_refl eq_refl eq_refl).
Defined.

(** ** What escapes the helper *)

(** X4. With the key present and the Director Tools field in order (not
    decoded, or decoded to a dict), a number that does not convert makes
    the helper raise: the exception of the first of [int(steps)],
    [float(scale)], [int(seed)] that fails leaves the call, and nothing
    has been printed or sent by then. *)
Theorem conversion_error_escapes (W : World) (api_key : option string)
    (prompt neg_prompt : string) (width height : Z) (steps scale : pyval)
    (sampler : string) (seed : pyval) (director_json_str : option string)
    (e : exn) :
  truthy api_key = true ->
  blank director_json_str = true
  \/ (exists d, json_loads W (opt_str director_json_str) = inr (JObj d)) ->
  first_conversion_error steps scale seed = Some e ->
  let c := call_novelai_api W api_key prompt neg_prompt width height steps
             scale sampler seed director_json_str in
  completes c = Raised e /\ trace c = [].
Proof.
  intros Hk Hd He c. subst c.
  assert (Hp : exists d, parse_director_tools W director_json_str
                         = Py [] (Next d)).
  { unfold parse_director_tools, blank in *.
    destruct (truthy director_json_str
              && truthy (strip <$> director_json_str)); [|now exists ∅].
    destruct Hd as [Hd|[d Hd]]; [discriminate|]. exists d. now rewrite Hd. }
  destruct Hp as [d Hp].
  unfold call_novelai_api, prepare_payload. rewrite Hk, Hp. cbn [negb].
  unfold first_conversion_error in He.
  destruct (py_int steps) as [e1|a]; [injection He as ->; split; reflexivity|].
  destruct (py_float scale) as [e2|b];
    [injection He as ->; split; reflexivity|].
  destruct (py_int seed) as [e3|z]; [injection He as ->; split; reflexivity|].
  discriminate.
Qed.

Lemma conversion_error_escapes_witness :
  let c := call_novelai_api Cases.silent (Some "key") "1girl" "lowres" 832 1216
             PNone (PFloat Demo.six) "k_euler_ancestral" PNone
             (Some Demo.foo_blob) in
  completes c
  = Raised (mk_exn TypeError
              "int() argument must be a string, a bytes-like object or a real number, not 'NoneType'")
  /\ trace c = [].
Proof.
  apply (conversion_error_escapes Cases.silent (Some "key") "1girl" "lowres"
           832 1216 PNone (PFloat Demo.six) "k_euler_ancestral" PNone
           (Some Demo.foo_blob)).
  - reflexivity.
  - right. exists {["foo" := JInt 1]}. reflexivity.
  - reflexivity.
Defined.

Lemma parse_director_tools_uncaught (W : World) (s : string) (e : exn) :
  truthy (Some (strip s)) = true ->
  json_loads W s = inl e ->
  isinstance e JSONDecodeError = false ->
  isinstance e ValueError = false ->
  parse_director_tools W (Some s) = Py [] (Raise e).
Proof.
  intros Hs H Hj Hv. unfold parse_director_tools.
  rewrite (strip_truthy _ Hs). simpl fmap. rewrite Hs. simpl.
  rewrite H. unfold try_except. simpl. rewrite Hj, Hv. reflexivity.
Qed.

Lemma parse_director_tools_value_error (W : World) (s : string) (e : exn) :
  truthy (Some (strip s)) = true ->
  json_loads W s = inl e ->
  isinstance e JSONDecodeError = false ->
  isinstance e ValueError = true ->
  parse_director_tools W (Some s)
  = Py [] (Return (None, "Error: " ++ exn_msg e)).
Proof.
  intros Hs H Hj Hv. unfold parse_director_tools.
  rewrite (strip_truthy _ Hs). simpl fmap. rewrite Hs. simpl.
  rewrite H. unfold try_except. simpl. rewrite Hj, Hv. reflexivity.
Qed.

Lemma json_decode_error_is_value_error (e : exn) :
  isinstance e JSONDecodeError = true -> isinstance e ValueError = true.
Proof. destruct e as [c m r]. destruct c; (discriminate || reflexivity). Qed.

(** X5. The two [except] clauses around [json.loads] catch
    [ValueError]s only.  When decoding a non-blank Director Tools field
    raises anything else (a [RecursionError] on a text nested too deep),
    that exception leaves the helper, before anything is printed or sent. *)
Theorem director_json_other_error_escapes (W : World)
    (api_key : option string) (prompt neg_prompt : string) (width height : Z)
    (steps scale : pyval) (sampler : string) (seed : pyval) (s : string)
    (e : exn) :
  truthy api_key = true ->
  truthy (Some (strip s)) = true ->
  json_loads W s = inl e ->
  isinstance e ValueError = false ->
  let c := call_novelai_api W api_key prompt neg_prompt width height steps
             scale sampler seed (Some s) in
  completes c = Raised e /\ trace c = [].
Proof.
  intros Hk Hs Hl Hv c. subst c.
  assert (Hj : isinstance e JSONDecodeError = false).
  { destruct (isinstance e JSONDecodeError) eqn:E; [|reflexivity].
    now rewrite (json_decode_error_is_value_error e E) in Hv. }
  unfold call_novelai_api, prepare_payload. rewrite Hk. cbn [negb].
  rewrite (parse_director_tools_uncaught W s e Hs Hl Hj Hv).
  split; reflexivity.
Qed.

Lemma director_json_other_error_escapes_witness :
  let c := Demo.call Cases.silent (Some "key") (PInt (-1)) (Some Cases.deep) in
  completes c = Raised Cases.recursion_error /\ trace c = [].
Proof.
  exact (director_json_other_error_escapes Cases.silent (Some "key") "1girl"
           "lowres" 832 1216 (PInt 28) (PFloat Demo.six) "k_euler_ancestral"
           (PInt (-1)) Cases.deep Cases.recursion_error
           eq_refl eq_refl eq_refl eq_refl).
Defined.

(** X6. A [ValueError] from [json.loads] that is no [JSONDecodeError] (an
    integer literal with too many digits) is reported by the clause
    meant for the dict check: no images, the message [Error: ] followed
    by the text of the exception, and no request. *)
Theorem director_json_value_error_reported (W : World)
    (api_key : option string) (prompt neg_prompt : string) (width height : Z)
    (steps scale : pyval) (sampler : string) (seed : pyval) (s : string)
    (e : exn) :
  truthy api_key = true ->
  truthy (Some (strip s)) = true ->
  json_loads W s = inl e ->
  isinstance e JSONDecodeError = false ->
  isinstance e ValueError = true ->
  let c := call_novelai_api W api_key prompt neg_prompt width height steps
             scale sampler seed (Some s) in
  fails_with c ("Error: " ++ exn_msg e) /\ trace c = [].
Proof.
  intros Hk Hs Hl Hj Hv c. subst c.
  unfold fails_with, call_novelai_api, prepare_payload. rewrite Hk. cbn [negb].
  rewrite (parse_director_tools_value_error W s e Hs Hl Hj Hv).
  split; reflexivity.
Qed.

Lemma director_json_value_error_reported_witness :
  let c := Demo.call Cases.silent (Some "key") (PInt (-1)) (Some Cases.long) in
  fails_with c ("Error: " ++ exn_msg Cases.digits_error) /\ trace c = [].
Proof.
  exact (director_json_value_error_reported Cases.silent (Some "key") "1girl"
           "lowres" 832 1216 (PInt 28) (PFloat Demo.six) "k_euler_ancestral"
           (PInt (-1)) Cases.long Cases.digits_error
           eq_refl eq_refl eq_refl eq_refl eq_refl).
Defined.

(** ** When the request gets no answer *)

Lemma after_post_raised (W : World) (seed : pyval) (e : exn)
    (h : py result Empty_set) :
  on_exception W e = Some h ->
  after_post W seed (inl e) = Py (trace h) (outcome h).
Proof.
  intros Hh. unfold after_post, try_except, lift, raise, mbind, py_bind.
  cbn [outcome trace]. now rewrite Hh.
Qed.

(** X7. When [requests.post] raises: a [Timeout] (a [ConnectTimeout],
    which is a [ConnectionError] as well, included) gives the time-out
    message; any other [requests] exception that is no [HTTPError] gives
    the network error message with the text of the exception.  No image
    either way, and the line before the [return] is on the console. *)
Theorem network_failure_reported (W : World) (api_key : option string)
    (prompt neg_prompt : string) (width height : Z) (steps scale : pyval)
    (sampler : string) (seed : pyval) (director_json_str : option string)
    (body : payload) (e : exn) :
  outcome (prepare_payload W api_key prompt neg_prompt width height steps
             scale sampler seed director_json_str) = Next body ->
  requests_post W (nai_request api_key body) = inl e ->
  let c := call_novelai_api W api_key prompt neg_prompt width height steps
             scale sampler seed director_json_str in
  (isinstance e Timeout = true ->
     fails_with c "Error: Request to NovelAI timed out."
     /\ last (prints (trace c)) = Some "NovelAI request timed out.")
  /\ (isinstance e Timeout = false -> isinstance e HTTPError = false ->
      isinstance e RequestException = true ->
      fails_with c ("Error: Network error connecting to NovelAI API: "
                    ++ exn_msg e)
      /\ last (prints (trace c))
         = Some ("Network error calling NovelAI API: " ++ exn_msg e)).
Proof.
  intros Hp Hr c. subst c. unfold fails_with.
  rewrite (call_novelai_api_cut _ _ _ _ _ _ _ _ _ _ _ _ Hp), Hr.
  split.
  - intros Ht.
    rewrite (after_post_raised W seed e
               (print "NovelAI request timed out.";;
                ret_ (None, "Error: Request to NovelAI timed out.")));
      [|unfold on_exception; now rewrite Ht].
    split; [reflexivity|]. cbn [trace].
    rewrite prints_app. cbn. now rewrite last_snoc.
  - intros Ht Hh Hq.
    rewrite (after_post_raised W seed e
               (print ("Network error calling NovelAI API: " ++ exn_msg e);;
                ret_ (None, "Error: Network error connecting to NovelAI API: "
                            ++ exn_msg e)));
      [|unfold on_exception; now rewrite Ht, Hh, Hq].
    split; [reflexivity|]. cbn [trace].
    rewrite prints_app. cbn. now rewrite last_snoc.
Qed.

Lemma network_failure_reported_witness :
  (let c := Demo.call
              (Demo.failing (mk_exn ConnectTimeout "Connection timed out"))
              (Some "key") (PInt (-1)) None in
   fails_with c "Error: Request to NovelAI timed out."
   /\ last (prints (trace c)) = Some "NovelAI request timed out.")
  /\
  (let c := Demo.call
              (Demo.failing (mk_exn ConnectionError "Connection refused"))
              (Some "key") (PInt (-1)) None in
   fails_with c ("Error: Network error connecting to NovelAI API: "
                 ++ "Connection refused")
   /\ last (prints (trace c))
      = Some ("Network error calling NovelAI API: " ++ "Connection refused")).
Proof.
  split.
  - exact (proj1 (network_failure_reported
                    (Demo.failing (mk_exn ConnectTimeout "Connection timed out"))
                    (Some "key") "1girl" "lowres" 832 1216 (PInt 28)
                    (PFloat Demo.six) "k_euler_ancestral" (PInt (-1)) None
                    Cases.plain_body
                    (mk_exn ConnectTimeout "Connection timed out")
                    eq_refl eq_refl) eq_refl).
  - exact (proj2 (network_failure_reported
                    (Demo.failing (mk_exn ConnectionError "Connection refused"))
                    (Some "key") "1girl" "lowres" 832 1216 (PInt 28)
                    (PFloat Demo.six) "k_euler_ancestral" (PInt (-1)) None
                    Cases.plain_body
                    (mk_exn ConnectionError "Connection refused")
                    eq_refl eq_refl) eq_refl eq_refl eq_refl).
Defined.

(** X8. When [requests.post] raises an exception that does not come from
    [requests], the catch-all clause reports it: no image, the message
    [Unexpected Error: ] with the text of the exception, and the banner
    and the traceback as the last two lines on the console. *)
Theorem unexpected_exception_reported (W : World) (api_key : option string)
    (prompt neg_prompt : string) (width height : Z) (steps scale : pyval)
    (sampler : string) (seed : pyval) (director_json_str : option string)
    (body : payload) (e : exn) :
  outcome (prepare_payload W api_key prompt neg_prompt width height steps
             scale sampler seed director_json_str) = Next body ->
  requests_post W (nai_request api_key body) = inl e ->
  isinstance e RequestException = false ->
  let c := call_novelai_api W api_key prompt neg_prompt width height steps
             scale sampler seed director_json_str in
  fails_with c ("Unexpected Error: " ++ exn_msg e)
  /\ exists before,
       prints (trace c)
       = (before ++ ["!!! Unexpected Error in call_novelai_api !!!";
                     format_exc W e])%list.
Proof.
  intros Hp Hr Hq c. subst c. unfold fails_with.
  assert (Ht : isinstance e Timeout = false).
  { destruct (isinstance e Timeout) eqn:E; [|reflexivity].
    now rewrite (timeout_is_request_exception e E) in Hq. }
  assert (Hh : isinstance e HTTPError = false).
  { destruct (isinstance e HTTPError) eqn:E; [|reflexivity].
    now rewrite (http_error_is_request_exception e E) in Hq. }
  rewrite (call_novelai_api_cut _ _ _ _ _ _ _ _ _ _ _ _ Hp), Hr.
  rewrite (after_post_raised W seed e
             (print "!!! Unexpected Error in call_novelai_api !!!";;
              print (format_exc W e);;
              ret_ (None, "Unexpected Error: " ++ exn_msg e)));
    [|unfold on_exception; now rewrite Ht, Hh, Hq, isinstance_Exception].
  split; [reflexivity|]. cbn [trace]. rewrite prints_app. cbn.
  eexists. reflexivity.
Qed.

Lemma unexpected_exception_reported_witness :
  let c := Demo.call (Demo.failing (mk_exn TypeError "not serializable"))
             (Some "key") (PInt (-1)) None in
  fails_with c ("Unexpected Error: " ++ "not serializable")
  /\ exists before,
       prints (trace c)
       = (before ++ ["!!! Unexpected Error in call_novelai_api !!!";
                     "Traceback (most recent call last): not serializable"])%list.
Proof.
  exact (unexpected_exception_reported
           (Demo.failing (mk_exn TypeError "not serializable"))
           (Some "key") "1girl" "lowres" 832 1216 (PInt 28) (PFloat Demo.six)
           "k_euler_ancestral" (PInt (-1)) None Cases.plain_body
           (mk_exn TypeError "not serializable") eq_refl eq_refl eq_refl).
Defined.

(** ** What the console shows around the request *)

(** X9. Whenever a request is sent, the console has, right before it,
    the banner, the dump of exactly the body that is sent (merged
    Director Tools parameters included), and the rule; nothing else was
    printed before. *)
Theorem payload_logged_before_request (W : World) (api_key : option string)
    (prompt neg_prompt : string) (width height : Z) (steps scale : pyval)
    (sampler : string) (seed : pyval) (director_json_str : option string)
    (req : request) :
  req ∈ posts (trace (call_novelai_api W api_key prompt neg_prompt width
                        height steps scale sampler seed director_json_str)) ->
  exists after,
    trace (call_novelai_api W api_key prompt neg_prompt width height steps
             scale sampler seed director_json_str)
    = ([Print "--- Sending Payload to NovelAI ---";
        Print (json_dumps W (payload_json (req_json req)));
        Print "---------------------------------";
        Post req] ++ after)%list.
Proof.
  intros Hin. destruct (request_sent_inv _ _ _ _ _ _ _ _ _ _ _ _ Hin)
    as (body & Hb & ->).
  destruct (prepare_payload_next_inv _ _ _ _ _ _ _ _ _ _ _ _ Hb)
    as (_ & d & a & b & c & _ & _ & _ & _ & _ & Ht & _).
  rewrite (call_novelai_api_cut _ _ _ _ _ _ _ _ _ _ _ _ Hb). cbn [trace].
  rewrite Ht. eexists. reflexivity.
Qed.

Lemma payload_logged_before_request_witness :
  exists after,
    trace (Demo.call Cases.silent (Some "key") (PInt (-1)) None)
    = ([Print "--- Sending Payload to NovelAI ---";
        Print (json_dumps Cases.silent
                 (payload_json
                    (req_json (nai_request (Some "key") Cases.plain_body))));
        Print "---------------------------------";
        Post (nai_request (Some "key") Cases.plain_body)] ++ after)%list.
Proof.
  apply (payload_logged_before_request Cases.silent (Some "key") "1girl"
           "lowres" 832 1216 (PInt 28) (PFloat Demo.six) "k_euler_ancestral"
           (PInt (-1)) None).
  vm_compute. apply list_elem_of_here.
Defined.

Lemma try_except_trace {R A} (body : py R A) h :
  exists t, trace (try_except body h) = (trace body ++ t)%list.
Proof.
  unfold try_except. destruct (outcome body) as [a|r|e].
  - exists []. now rewrite app_nil_r.
  - exists []. now rewrite app_nil_r.
  - destruct (h e) as [s|]; [exists (trace s); reflexivity|].
    exists []. now rewrite app_nil_r.
Qed.

(** X10. Whenever [requests.post] hands back a response, whatever its
    status, the line with the status code is printed right after the
    request, before anything is decided about the response. *)
Theorem status_line_logged (W : World) (api_key : option string)
    (prompt neg_prompt : string) (width height : Z) (steps scale : pyval)
    (sampler : string) (seed : pyval) (director_json_str : option string)
    (body : payload) (r : response) :
  outcome (prepare_payload W api_key prompt neg_prompt width height steps
             scale sampler seed director_json_str) = Next body ->
  requests_post W (nai_request api_key body) = inr r ->
  exists before after,
    posts before = []
    /\ trace (call_novelai_api W api_key prompt neg_prompt width height steps
                scale sampler seed director_json_str)
       = (before
          ++ [Post (nai_request api_key body);
              Print ("NovelAI Response Status Code: "
                     ++ of_int (status_code r))]
          ++ after)%list.
Proof.
  intros Hp Hr.
  rewrite (call_novelai_api_cut _ _ _ _ _ _ _ _ _ _ _ _ Hp), Hr. cbn [trace].
  unfold after_post.
  destruct (try_except_trace (lift (inr r) ≫= handle_response W seed)
              (on_exception W)) as [t ->].
  exists (trace (prepare_payload W api_key prompt neg_prompt width height
                   steps scale sampler seed director_json_str)).
  exists (trace (raise_for_status r ≫= (fun _ => read_body W seed r)) ++ t)%list.
  split; [apply no_request_prepare_payload|].
  reflexivity.
Qed.

Lemma status_line_logged_witness :
  exists before after,
    posts before = []
    /\ trace (Demo.call (Demo.answering (Demo.reply 503 "text/html" "busy"))
                (Some "key") (PInt (-1)) None)
       = (before
          ++ [Post (nai_request (Some "key") Cases.plain_body);
              Print ("NovelAI Response Status Code: " ++ of_int 503)]
          ++ after)%list.
Proof.
  exact (status_line_logged
           (Demo.answering (Demo.reply 503 "text/html" "busy"))
           (Some "key") "1girl" "lowres" 832 1216 (PInt 28) (PFloat Demo.six)
           "k_euler_ancestral" (PInt (-1)) None Cases.plain_body
           (Demo.reply 503 "text/html" "busy") eq_refl eq_refl).
Defined.

(** ** The last branch of the chain *)

(** X11. A response whose status is not 4xx or 5xx, whose content type
    names none of the three known types and whose body does not start
    with the stream marker: no image, and a message that names the
    declared content type (empty when the header is missing) and the
    status code. *)
Theorem unexpected_content_type_reported (W : World)
    (api_key : option string) (prompt neg_prompt : string) (width height : Z)
    (steps scale : pyval) (sampler : string) (seed : pyval)
    (director_json_str : option string) (body : payload) (r : response) :
  outcome (prepare_payload W api_key prompt neg_prompt width height steps
             scale sampler seed director_json_str) = Next body ->
  requests_post W (nai_request api_key body) = inr r ->
  status_code r < 400 \/ 600 <= status_code r ->
  contains "application/zip" (content_type_of r) = false ->
  contains "text/event-stream" (content_type_of r) = false ->
  startswith (strip (text r)) "event:" = false ->
  contains "application/json" (content_type_of r) = false ->
  fails_with (call_novelai_api W api_key prompt neg_prompt width height steps
                scale sampler seed director_json_str)
    ("Error: Unexpected Content-Type from NovelAI: "
     ++ default "" (headers r !! "content-type")
     ++ ". Status: " ++ of_int (status_code r)).
Proof.
  intros Hp Hr Hs Hz He Hm Hj. unfold fails_with.
  rewrite (completes_call _ _ _ _ _ _ _ _ _ _ _ _ Hp), Hr.
  apply completes_after_post_return.
  - unfold status_passes.
    destruct (400 <=? status_code r) eqn:E1;
      destruct (status_code r <? 600) eqn:E2; try reflexivity; lia.
  - unfold read_body, classify. cbv zeta. rewrite Hz, He, Hm, Hj. reflexivity.
Qed.

Lemma unexpected_content_type_reported_witness :
  fails_with
    (Demo.call (Demo.answering (Demo.reply 200 "text/html" "<html>"))
       (Some "key") (PInt (-1)) None)
    ("Error: Unexpected Content-Type from NovelAI: " ++ "text/html"
     ++ ". Status: " ++ "200").
Proof.
  refine (unexpected_content_type_reported
            (Demo.answering (Demo.reply 200 "text/html" "<html>"))
            (Some "key") "1girl" "lowres" 832 1216 (PInt 28) (PFloat Demo.six)
            "k_euler_ancestral" (PInt (-1)) None Cases.plain_body
            (Demo.reply 200 "text/html" "<html>") eq_refl eq_refl _
            eq_refl eq_refl eq_refl eq_refl).
  left. cbn. lia.
Defined.

(** ** The loop over the lines of an event stream *)

Lemma find_b64_data_first (before after : list string) (line : string) :
  Forall (fun l => startswith l "data:" = false) before ->
  startswith line "data:" = true ->
  find_b64_data (before ++ line :: after)
  = Some (strip (slice_from 5 line)).
Proof.
  intros Hb Hl. induction Hb as [|l before Hx _ IH]; cbn [app find_b64_data].
  - now rewrite Hl.
  - now rewrite Hx.
Qed.

(** X12. The loop stops at the first line that starts with [data:] and
    takes what follows the marker, stripped; the lines after it are never
    looked at.  So when that first line carries nothing, a 2xx event
    stream fails with the "could not parse" message even if a later
    [data:] line holds an image. *)
Theorem first_data_line_decides (W : World) (api_key : option string)
    (prompt neg_prompt : string) (width height : Z) (steps scale : pyval)
    (sampler : string) (seed : pyval) (director_json_str : option string)
    (body : payload) (r : response) (before after : list string)
    (line : string) :
  outcome (prepare_payload W api_key prompt neg_prompt width height steps
             scale sampler seed director_json_str) = Next body ->
  requests_post W (nai_request api_key body) = inr r ->
  200 <= status_code r < 300 ->
  contains "application/zip" (content_type_of r) = false ->
  contains "text/event-stream" (content_type_of r)
  || startswith (strip (text r)) "event:" = true ->
  split_lines (strip (text r)) = (before ++ line :: after)%list ->
  Forall (fun l => startswith l "data:" = false) before ->
  startswith line "data:" = true ->
  find_b64_data (split_lines (strip (text r)))
  = Some (strip (slice_from 5 line))
  /\ (strip (slice_from 5 line) = "" ->
      fails_with (call_novelai_api W api_key prompt neg_prompt width height
                    steps scale sampler seed director_json_str)
        ("Error: Could not parse image data from NovelAI stream. Status: "
         ++ of_int (status_code r))).
Proof.
  intros Hp Hr Hs Hz He Hl Hb Hd.
  assert (Hf : find_b64_data (split_lines (strip (text r)))
               = Some (strip (slice_from 5 line))).
  { rewrite Hl. now apply find_b64_data_first. }
  split; [exact Hf|]. intros Hblank. unfold fails_with.
  rewrite (completes_call _ _ _ _ _ _ _ _ _ _ _ _ Hp), Hr.
  apply completes_after_post_return; [now apply status_2xx_passes|].
  unfold read_body. rewrite (classify_event_stream _ Hz He).
  apply read_event_stream_no_data. now rewrite Hf, Hblank.
Qed.

Lemma first_data_line_decides_witness :
  let r := Demo.reply 200 "text/event-stream"
             ("event: newImage" ++ nl ++ "data:   " ++ nl
              ++ "data: iVBORw0KGgo=") in
  find_b64_data (split_lines (strip (text r))) = Some ""
  /\ fails_with (Demo.call (Demo.answering r) (Some "key") (PInt (-1)) None)
       ("Error: Could not parse image data from NovelAI stream. Status: "
        ++ "200").
Proof.
  pose proof (first_data_line_decides
                (Demo.answering
                   (Demo.reply 200 "text/event-stream"
                      ("event: newImage" ++ nl ++ "data:   " ++ nl
                       ++ "data: iVBORw0KGgo=")))
                (Some "key") "1girl" "lowres" 832 1216 (PInt 28)
                (PFloat Demo.six) "k_euler_ancestral" (PInt (-1)) None
                Cases.plain_body
                (Demo.reply 200 "text/event-stream"
                   ("event: newImage" ++ nl ++ "data:   " ++ nl
                    ++ "data: iVBORw0KGgo="))
                ["event: newImage"] ["data: iVBORw0KGgo="] "data:   "
                eq_refl eq_refl ltac:(cbn; lia) eq_refl eq_refl eq_refl
                ltac:(repeat constructor) eq_refl) as [H1 H2].
  split; [exact H1|exact (H2 eq_refl)].
Defined.

(** ** The text of an HTTP error *)



(** ** The merge and the top level of the body *)

(** X14. The Director Tools dict is merged into [parameters] and nowhere
    else: in every request the helper sends, [input] is the prompt and
    [model] and [action] are the two fixed texts, also when the dict has
    keys of those names. *)
Theorem overrides_never_reach_top_level (W : World) (api_key : option string)
    (prompt neg_prompt : string) (width height : Z) (steps scale : pyval)
    (sampler : string) (seed : pyval) (director_json_str : option string)
    (req : request) :
  req ∈ posts (trace (call_novelai_api W api_key prompt neg_prompt width
                        height steps scale sampler seed director_json_str)) ->
  p_input (req_json req) = JStr prompt
  /\ p_model (req_json req) = JStr "nai-diffusion-3"
  /\ p_action (req_json req) = JStr "generate".
Proof. apply director_overrides_leave_top_level. Qed.

Lemma overrides_never_reach_top_level_witness :
  p_input (req_json (nai_request (Some "key")
                       (merge_director Cases.plain_body
                          (<["seed" := JInt 7]> {["input" := JInt 1]}))))
  = JStr "1girl"
  /\ p_model (req_json (nai_request (Some "key")
                          (merge_director Cases.plain_body
                             (<["seed" := JInt 7]> {["input" := JInt 1]}))))
     = JStr "nai-diffusion-3"
  /\ p_action (req_json (nai_request (Some "key")
                           (merge_director Cases.plain_body
                              (<["seed" := JInt 7]> {["input" := JInt 1]}))))
     = JStr "generate".
Proof.
  apply (overrides_never_reach_top_level Cases.silent (Some "key") "1girl"
           "lowres" 832 1216 (PInt 28) (PFloat Demo.six) "k_euler_ancestral"
           (PInt (-1)) (Some Demo.seed_blob)).
  vm_compute. apply list_elem_of_here.
Defined.

(** ** What a successful call looks like *)

Section ReturnsOnly.
Context (P : result -> Prop).

Lemma returns_only_mret {A} (a : A) : returns_only P (mret a).
Proof. intros x H. discriminate H. Qed.

Lemma returns_only_raise {A} (e : exn) : returns_only P (raise e : py result A).
Proof. intros x H. discriminate H. Qed.

Lemma returns_only_print (line : string) : returns_only P (print line).
Proof. intros x H. discriminate H. Qed.

Lemma returns_only_lift {A} (v : exn + A) : returns_only P (lift v).
Proof. intros x H. destruct v; discriminate H. Qed.

Lemma returns_only_ret {A} (x : result) :
  P x -> returns_only P (ret_ x : py result A).
Proof. intros Hx y [= <-]. exact Hx. Qed.

Lemma returns_only_bind {A B} (m : py result A) (k : A -> py result B) :
  returns_only P m -> (forall a, returns_only P (k a)) ->
  returns_only P (m ≫= k).
Proof.
  intros Hm Hk x. unfold mbind, py_bind.
  destruct (outcome m) as [a|r|e] eqn:E; cbn [outcome].
  - apply Hk.
  - intros [= <-]. now apply Hm.
  - discriminate.
Qed.

Lemma returns_only_try {A} (body : py result A) handler :
  returns_only P body ->
  (forall e h, handler e = Some h -> returns_only P h) ->
  returns_only P (try_except body handler).
Proof.
  intros Hb Hh x. unfold try_except.
  destruct (outcome body) as [a|r|e] eqn:E.
  - rewrite E. discriminate.
  - rewrite E. intros [= <-]. now apply Hb.
  - destruct (handler e) as [h|] eqn:Eh.
    + cbn [outcome]. now apply (Hh e h).
    + rewrite E. discriminate.
Qed.

End ReturnsOnly.

Ltac returns_only :=
  repeat first
    [ apply returns_only_bind; [|intros ?]
    | apply returns_only_try; [|intros ? ? ?]
    | apply returns_only_mret
    | apply returns_only_raise
    | apply returns_only_print
    | apply returns_only_lift
    | apply returns_only_ret; solve [now left | right; eexists; reflexivity] ].

Lemma returns_only_read_body (W : World) (seed : pyval) (r : response) :
  returns_only (none_or_one_image W seed) (read_body W seed r).
Proof.
  unfold read_body. destruct (classify r).
  - returns_only.
  - unfold read_event_stream. cbv zeta. destruct (negb _); returns_only.
    destruct (isinstance e Exception); [|discriminate].
    injection H as <-. returns_only.
  - unfold read_json_body. returns_only.
    destruct (isinstance e JSONDecodeError); [|discriminate].
    injection H as <-. returns_only.
  - returns_only.
Qed.

Lemma returns_only_on_exception (W : World) (seed : pyval) (e : exn)
    (h : py result Empty_set) :
  on_exception W e = Some h -> returns_only (none_or_one_image W seed) h.
Proof.
  unfold on_exception.
  destruct (isinstance e Timeout); [intros [= <-]; returns_only|].
  destruct (isinstance e HTTPError).
  { intros [= <-]. unfold on_http_error.
    destruct (exn_response e) as [r|]; returns_only.
    - destruct a; returns_only.
    - injection H as <-. returns_only. }
  destruct (isinstance e RequestException); [intros [= <-]; returns_only|].
  destruct (isinstance e Exception); [intros [= <-]; returns_only|].
  discriminate.
Qed.

Lemma returns_only_after_post (W : World) (seed : pyval)
    (answer : exn + response) :
  returns_only (none_or_one_image W seed) (after_post W seed answer).
Proof.
  unfold after_post. apply returns_only_try.
  - apply returns_only_bind; [apply returns_only_lift|]. intros r.
    unfold handle_response. returns_only.
    + unfold raise_for_status.
      repeat match goal with |- context [if ?b then _ else _] => destruct b end;
        returns_only.
    + apply returns_only_read_body.
  - intros e h. apply returns_only_on_exception.
Qed.

Lemma prepare_payload_returns_none (W : World) (api_key : option string)
    (prompt neg_prompt : string) (width height : Z) (steps scale : pyval)
    (sampler : string) (seed : pyval) (director_json_str : option string) :
  returns_only (fun x => fst x = None)
    (prepare_payload W api_key prompt neg_prompt width height steps scale
       sampler seed director_json_str).
Proof.
  unfold prepare_payload. destruct (negb (truthy api_key)).
  { intros x [= <-]. reflexivity. }
  apply returns_only_bind.
  - unfold parse_director_tools.
    destruct (truthy _ && truthy _); [|apply returns_only_mret].
    apply returns_only_try.
    + apply returns_only_bind; [apply returns_only_lift|]. intros v.
      destruct v; (apply returns_only_mret || apply returns_only_raise).
    + intros e h.
      destruct (isinstance e JSONDecodeError);
        [intros [= <-]; now apply returns_only_ret|].
      destruct (isinstance e ValueError);
        [intros [= <-]; now apply returns_only_ret|].
      discriminate.
  - intros d. repeat first
      [ apply returns_only_bind; [|intros ?]
      | apply returns_only_lift | apply returns_only_print
      | apply returns_only_mret ].
Qed.

(** Whatever the helper returns is an error result or one image with the
    status text. *)
Lemma call_novelai_api_result_shape (W : World) (api_key : option string)
    (prompt neg_prompt : string) (width height : Z) (steps scale : pyval)
    (sampler : string) (seed : pyval) (director_json_str : option string)
    (x : result) :
  completes (call_novelai_api W api_key prompt neg_prompt width height steps
               scale sampler seed director_json_str) = Returned x ->
  none_or_one_image W seed x
  /\ (fst x <> None ->
      exists body,
        outcome (prepare_payload W api_key prompt neg_prompt width height
                   steps scale sampler seed director_json_str) = Next body).
Proof.
  intros Hc.
  destruct (outcome (prepare_payload W api_key prompt neg_prompt width height
                       steps scale sampler seed director_json_str))
    as [body|y|e] eqn:E.
  - split; [|intros _; now exists body].
    rewrite (completes_call _ _ _ _ _ _ _ _ _ _ _ _ E) in Hc.
    apply (returns_only_after_post W seed
             (requests_post W (nai_request api_key body))).
    unfold completes in Hc.
    destruct (outcome (after_post W seed
                         (requests_post W (nai_request api_key body))))
      as [[]|z|z]; congruence.
  - unfold call_novelai_api in Hc. rewrite (bind_return _ _ _ E) in Hc.
    injection Hc as <-.
    pose proof (prepare_payload_returns_none _ _ _ _ _ _ _ _ _ _ _ _ E) as Hn.
    split; [now left|]. intros Hx. now destruct Hx.
  - unfold call_novelai_api in Hc. rewrite (bind_raise _ _ _ E) in Hc.
    discriminate.
Qed.

(** X15. Whenever the helper returns images, it returns exactly one, and
    the text with it is the fixed success text, which shows the seed as
    it was asked for (not a seed the service may have used). *)
Theorem success_is_one_image (W : World) (api_key : option string)
    (prompt neg_prompt : string) (width height : Z) (steps scale : pyval)
    (sampler : string) (seed : pyval) (director_json_str : option string)
    (images : list image) (info_text : string) :
  completes (call_novelai_api W api_key prompt neg_prompt width height steps
               scale sampler seed director_json_str)
  = Returned (Some images, info_text) ->
  (exists img, images = [img])
  /\ info_text
     = "Successfully generated image via NovelAI." ++ nl ++ "Seed: "
       ++ pyval_str W seed ++ " (API might use/return a different one)" ++ nl
       ++ "(Check console logs for request details)".
Proof.
  intros Hc.
  destruct (call_novelai_api_result_shape _ _ _ _ _ _ _ _ _ _ _ _ Hc)
    as [[Hn|[img Hi]] _]; [discriminate|].
  injection Hi as -> ->. split; [now exists img|reflexivity].
Qed.

Lemma success_is_one_image_witness :
  (exists img, [PILImage Demo.png_signature] = [img])
  /\ "Successfully generated image via NovelAI." ++ nl ++ "Seed: "
     ++ "5" ++ " (API might use/return a different one)" ++ nl
     ++ "(Check console logs for request details)"
     = "Successfully generated image via NovelAI." ++ nl ++ "Seed: "
       ++ pyval_str Cases.streaming (PInt 5)
       ++ " (API might use/return a different one)" ++ nl
       ++ "(Check console logs for request details)".
Proof.
  exact (success_is_one_image Cases.streaming
           (Some "key") "1girl" "lowres" 832 1216 (PInt 28) (PFloat Demo.six)
           "k_euler_ancestral" (PInt 5) None [PILImage Demo.png_signature]
           _ eq_refl).
Defined.



(** ** [run], once the helper is back *)

Lemma run_called_trace (W : World) (p : processing.StableDiffusionProcessing)
    api_key steps sampler scale seed director_tools_json :
  let c := call_novelai_api W api_key (processing.prompt p)
             (processing.negative_prompt p) (processing.width p)
             (processing.height p) steps scale sampler seed
             director_tools_json in
  trace ((print "NovelAI script: Enabled, attempting to override generation.";;
          invoke c) : py processing.Processed result)
  = Print "NovelAI script: Enabled, attempting to override generation."
    :: trace c.
Proof. reflexivity. Qed.

(** X17. When the helper returns images, [run] returns a [Processed]
    built from the processing object as it was, that one image, the
    seed [int(seed)] of the panel (not [p.seed]) and the helper's text;
    the conversion cannot fail at this point. *)
Theorem run_returns_image (W : World)
    (p : processing.StableDiffusionProcessing) (api_key : option string)
    (steps : pyval) (sampler : string) (scale seed : pyval)
    (director_tools_json : option string) (images : option (list image))
    (info_text : string) :
  completes (call_novelai_api W api_key (processing.prompt p)
               (processing.negative_prompt p) (processing.width p)
               (processing.height p) steps scale sampler seed
               director_tools_json) = Returned (images, info_text) ->
  images_truthy images = true ->
  let on := run W p true api_key steps sampler scale seed director_tools_json in
  exists img z,
    images = Some [img] /\ py_int seed = inr z
    /\ completes (run_py on)
       = Returned (processing.Build_Processed p [img] z info_text)
    /\ p_after on = p.
Proof.
  intros Hc Hi on. subst on.
  destruct (call_novelai_api_result_shape _ _ _ _ _ _ _ _ _ _ _ _ Hc)
    as [Hshape Hprep].
  destruct Hshape as [Hn|[img Himg]].
  { cbn in Hn. subst images. discriminate. }
  injection Himg as -> ->.
  destruct Hprep as [body Hbody]; [discriminate|].
  destruct (prepare_payload_next_inv _ _ _ _ _ _ _ _ _ _ _ _ Hbody)
    as (_ & d & a & b & z & _ & _ & _ & Hz & _).
  exists img, z. split; [reflexivity|]. split; [exact Hz|].
  unfold run. cbn [negb].
  match goal with |- context [outcome ?m] => set (called := m) end.
  assert (Hout : outcome called
                 = Next (Some [img], final_info W seed)).
  { subst called. rewrite run_called_outcome. now rewrite Hc. }
  rewrite Hout. cbn [images_truthy p_after run_py]. split; [|reflexivity].
  rewrite (bind_next _ _ _ Hout). unfold completes.
  unfold mbind, py_bind. cbn [outcome trace print]. rewrite Hz. reflexivity.
Qed.

Lemma run_returns_image_witness :
  let on := run Cases.streaming Demo.p0 true (Some "key") (PInt 28)
              "k_euler_ancestral" (PFloat Demo.six) (PFloat Demo.six) None in
  exists img z,
    Some [PILImage Demo.png_signature] = Some [img]
    /\ py_int (PFloat Demo.six) = inr z
    /\ completes (run_py on)
       = Returned (processing.Build_Processed Demo.p0 [img] z
                     (final_info Cases.streaming (PFloat Demo.six)))
    /\ p_after on = Demo.p0.
Proof.
  exact (run_returns_image Cases.streaming Demo.p0 (Some "key") (PInt 28)
           "k_euler_ancestral" (PFloat Demo.six) (PFloat Demo.six) None
           (Some [PILImage Demo.png_signature])
           (final_info Cases.streaming (PFloat Demo.six)) eq_refl eq_refl).
Defined.

Lemma run_posts (W : World) (p : processing.StableDiffusionProcessing)
    (api_key : option string) (steps : pyval) (sampler : string)
    (scale seed : pyval) (director_tools_json : option string) :
  posts (trace (run_py (run W p true api_key steps sampler scale seed
                          director_tools_json)))
  = posts (trace (call_novelai_api W api_key (processing.prompt p)
                    (processing.negative_prompt p) (processing.width p)
                    (processing.height p) steps scale sampler seed
                    director_tools_json)).
Proof.
  unfold run. cbn [negb].
  match goal with |- context [outcome ?m] => set (called := m) end.
  assert (Ht : posts (trace called)
               = posts (trace (call_novelai_api W api_key (processing.prompt p)
                                 (processing.negative_prompt p)
                                 (processing.width p) (processing.height p)
                                 steps scale sampler seed director_tools_json)))
    by (subst called; now rewrite run_called_trace).
  destruct (outcome called) as [[images info_text]|x|e] eqn:Hout.
  - destruct (images_truthy images); cbn [run_py];
      rewrite (bind_next _ _ _ Hout); cbn [trace]; rewrite posts_app, Ht.
    + destruct (py_int seed); cbn; now rewrite app_nil_r.
    + cbn. now rewrite app_nil_r.
  - exfalso. subst called. rewrite run_called_outcome in Hout.
    destruct (completes _); discriminate.
  - cbn [run_py trace]. exact Ht.
Qed.

(** X18. [run] reaches the network only when the flag is set, and then
    only through the helper: every request it sends carries the prompt
    of the processing object as [input], and, when no Director Tools
    are given, its negative prompt, width and height under [parameters]. *)
Theorem run_sends_the_prompt (W : World)
    (p : processing.StableDiffusionProcessing) (enabled : bool)
    (api_key : option string) (steps : pyval) (sampler : string)
    (scale seed : pyval) (director_tools_json : option string)
    (req : request) :
  req ∈ posts (trace (run_py (run W p enabled api_key steps sampler scale seed
                                director_tools_json))) ->
  enabled = true
  /\ p_input (req_json req) = JStr (processing.prompt p)
  /\ (blank director_tools_json = true ->
      p_parameters (req_json req) !! "negative_prompt"
      = Some (JStr (processing.negative_prompt p))
      /\ p_parameters (req_json req) !! "width"
         = Some (JInt (processing.width p))
      /\ p_parameters (req_json req) !! "height"
         = Some (JInt (processing.height p))).
Proof.
  intros Hin. destruct enabled; [|inversion Hin].
  split; [reflexivity|]. rewrite run_posts in Hin.
  destruct (request_sent_inv _ _ _ _ _ _ _ _ _ _ _ _ Hin) as (body & Hb & ->).
  destruct (prepare_payload_next_inv _ _ _ _ _ _ _ _ _ _ _ _ Hb)
    as (_ & d & a & b & c & Hd & _ & _ & _ & -> & _).
  cbn [req_json nai_request]. split.
  - apply merge_director_top_level.
  - intros Hblank.
    assert (d = ∅) as ->.
    { unfold parse_director_tools, blank in *.
      destruct (truthy director_tools_json
                && truthy (strip <$> director_tools_json)); [discriminate|].
      now injection Hd as <-. }
    rewrite merge_director_empty. repeat split.
Qed.

Lemma run_sends_the_prompt_witness :
  true = true
  /\ p_input (req_json (nai_request (Some "key") Cases.plain_body))
     = JStr (processing.prompt Demo.p0)
  /\ (blank None = true ->
      p_parameters (req_json (nai_request (Some "key") Cases.plain_body))
        !! "negative_prompt"
      = Some (JStr (processing.negative_prompt Demo.p0))
      /\ p_parameters (req_json (nai_request (Some "key") Cases.plain_body))
           !! "width"
         = Some (JInt (processing.width Demo.p0))
      /\ p_parameters (req_json (nai_request (Some "key") Cases.plain_body))
           !! "height"
         = Some (JInt (processing.height Demo.p0))).
Proof.
  apply (run_sends_the_prompt Cases.silent Demo.p0 true (Some "key") (PInt 28)
           "k_euler_ancestral" (PFloat Demo.six) (PInt (-1)) None).
  vm_compute. apply list_elem_of_here.
Defined.

(** X19. [run] has no [try] of its own: an exception that leaves the
    helper (a cleared seed field is enough) leaves [run] as well, with
    the processing object as it was. *)
Theorem run_lets_exception_through (W : World)
    (p : processing.StableDiffusionProcessing) (api_key : option string)
    (steps : pyval) (sampler : string) (scale seed : pyval)
    (director_tools_json : option string) (e : exn) :
  completes (call_novelai_api W api_key (processing.prompt p)
               (processing.negative_prompt p) (processing.width p)
               (processing.height p) steps scale sampler seed
               director_tools_json) = Raised e ->
  let on := run W p true api_key steps sampler scale seed director_tools_json in
  completes (run_py on) = Raised e /\ p_after on = p.
Proof. apply run_propagates. Qed.

Lemma run_lets_exception_through_witness :
  let on := run Cases.silent Demo.p0 true (Some "key") (PInt 28)
              "k_euler_ancestral" (PFloat Demo.six) PNone None in
  completes (run_py on)
  = Raised (mk_exn TypeError
              "int() argument must be a string, a bytes-like object or a real number, not 'NoneType'")
  /\ p_after on = Demo.p0.
Proof.
  exact (run_lets_exception_through Cases.silent Demo.p0 (Some "key") (PInt 28)
           "k_euler_ancestral" (PFloat Demo.six) PNone None _ eq_refl).
Defined.

(** ** Where an image can come from *)

Ltac returns_none :=
  repeat first
    [ apply returns_only_bind; [|intros ?]
    | apply returns_only_try; [|intros ? ? ?]
    | apply returns_only_mret
    | apply returns_only_raise
    | apply returns_only_print
    | apply returns_only_lift
    | apply returns_only_ret; reflexivity ].

Lemma on_exception_returns_none (W : World) (e : exn)
    (h : py result Empty_set) :
  on_exception W e = Some h -> returns_only (fun x => fst x = None) h.
Proof.
  unfold on_exception.
  destruct (isinstance e Timeout); [intros [= <-]; returns_none|].
  destruct (isinstance e HTTPError).
  { intros [= <-]. unfold on_http_error.
    destruct (exn_response e) as [r|]; returns_none.
    - destruct a; returns_none.
    - injection H as <-. returns_none. }
  destruct (isinstance e RequestException); [intros [= <-]; returns_none|].
  destruct (isinstance e Exception); [intros [= <-]; returns_none|].
  discriminate.
Qed.

Lemma read_event_stream_image_inv (W : World) (seed : pyval) (r : response)
    (images : list image) (info_text : string) :
  outcome (read_event_stream W seed r) = Return (Some images, info_text) ->
  exists b64 bytes img,
    find_b64_data (split_lines (strip (text r))) = Some b64
    /\ b64 <> ""
    /\ b64decode W b64 = inr bytes
    /\ image_open W bytes = inr img
    /\ images = [img].
Proof.
  unfold read_event_stream. cbv zeta.
  destruct (find_b64_data (split_lines (strip (text r)))) as [[|c b64]|];
    cbn [truthy negb]; try discriminate.
  cbn [opt_str].
  destruct (b64decode W (String c b64)) as [e|bytes] eqn:Ed.
  { unfold try_except, lift, raise, mbind, py_bind. cbn [outcome trace].
    rewrite isinstance_Exception. discriminate. }
  destruct (image_open W bytes) as [e|img] eqn:Ei.
  - unfold try_except, lift, raise, mbind, py_bind, mret, py_ret.
    cbn [outcome trace]. rewrite Ei. cbn [outcome trace].
    rewrite isinstance_Exception. discriminate.
  - unfold try_except, lift, raise, mbind, py_bind, mret, py_ret.
    cbn [outcome trace]. rewrite Ei. cbn [outcome trace].
    intros [= <- _]. exists (String c b64), bytes, img.
    repeat split; [discriminate|exact Ed|exact Ei].
Qed.

Lemma read_body_image_inv (W : World) (seed : pyval) (r : response)
    (images : list image) (info_text : string) :
  outcome (read_body W seed r) = Return (Some images, info_text) ->
  classify r = EventStream
  /\ outcome (read_event_stream W seed r) = Return (Some images, info_text).
Proof.
  unfold read_body. destruct (classify r); try discriminate.
  - now split.
  - intros H. exfalso. revert H. unfold read_json_body.
    destruct (response_json W r) as [e|v]; [|discriminate].
    unfold try_except, lift, raise, mbind, py_bind. cbn [outcome trace].
    destruct (isinstance e JSONDecodeError); discriminate.
Qed.

Lemma after_post_image_inv (W : World) (seed : pyval)
    (answer : exn + response) (images : list image) (info_text : string) :
  completes (after_post W seed answer) = Returned (Some images, info_text) ->
  exists r, answer = inr r /\ status_passes r = true
            /\ outcome (read_body W seed r) = Return (Some images, info_text).
Proof.
  unfold after_post, try_except, completes.
  destruct (outcome (lift answer ≫= handle_response W seed))
    as [[]|x|e] eqn:Eb.
  - rewrite Eb. intros [= ->]. destruct answer as [e|r]; [discriminate|].
    exists r. split; [reflexivity|].
    assert (Ho : outcome (handle_response W seed r)
                 = Return (Some images, info_text)) by exact Eb.
    rewrite handle_response_outcome in Ho.
    destruct (status_passes r); [now split|discriminate].
  - destruct (on_exception W e) as [h|] eqn:Eh.
    + cbn [outcome]. destruct (outcome h) as [[]|x|e'] eqn:Ex; [|discriminate].
      intros [= ->].
      now pose proof (on_exception_returns_none W e h Eh _ Ex).
    + rewrite Eb. discriminate.
Qed.

(** X20. An image has one way in.  Whenever the helper returns images, a
    response did arrive, its status was not 4xx or 5xx, it took the
    event-stream branch, and the one image returned is what
    [Image.open] made of the bytes that [b64decode] made of the
    (non-empty) text of the first [data:] line. *)
Theorem image_comes_from_event_stream (W : World) (api_key : option string)
    (prompt neg_prompt : string) (width height : Z) (steps scale : pyval)
    (sampler : string) (seed : pyval) (director_json_str : option string)
    (images : list image) (info_text : string) :
  completes (call_novelai_api W api_key prompt neg_prompt width height steps
               scale sampler seed director_json_str)
  = Returned (Some images, info_text) ->
  exists body r b64 bytes img,
    requests_post W (nai_request api_key body) = inr r
    /\ (status_code r < 400 \/ 600 <= status_code r)
    /\ classify r = EventStream
    /\ find_b64_data (split_lines (strip (text r))) = Some b64
    /\ b64 <> ""
    /\ b64decode W b64 = inr bytes
    /\ image_open W bytes = inr img
    /\ images = [img].
Proof.
  intros Hc.
  destruct (call_novelai_api_result_shape _ _ _ _ _ _ _ _ _ _ _ _ Hc)
    as [_ Hprep].
  destruct Hprep as [body Hbody]; [discriminate|].
  rewrite (completes_call _ _ _ _ _ _ _ _ _ _ _ _ Hbody) in Hc.
  destruct (after_post_image_inv _ _ _ _ _ Hc) as (r & Hr & Hs & Hb).
  destruct (read_body_image_inv _ _ _ _ _ Hb) as [Hk He].
  destruct (read_event_stream_image_inv _ _ _ _ _ He)
    as (b64 & bytes & img & Hf & Hne & Hd & Hi & ->).
  exists body, r, b64, bytes, img. repeat split; try assumption.
  unfold status_passes in Hs.
  destruct (400 <=? status_code r) eqn:E1;
    destruct (status_code r <? 600) eqn:E2; try discriminate; lia.
Qed.

Lemma image_comes_from_event_stream_witness :
  exists body r b64 bytes img,
    requests_post Cases.streaming (nai_request (Some "key") body) = inr r
    /\ (status_code r < 400 \/ 600 <= status_code r)
    /\ classify r = EventStream
    /\ find_b64_data (split_lines (strip (text r))) = Some b64
    /\ b64 <> ""
    /\ b64decode Cases.streaming b64 = inr bytes
    /\ image_open Cases.streaming bytes = inr img
    /\ [PILImage Demo.png_signature] = [img].
Proof.
  exact (image_comes_from_event_stream Cases.streaming (Some "key") "1girl"
           "lowres" 832 1216 (PInt 28) (PFloat Demo.six) "k_euler_ancestral"
           (PInt (-1)) None [PILImage Demo.png_signature]
           (final_info Cases.streaming (PInt (-1))) eq_refl).
Defined.

(** ** The dump of line 81 *)

(** [json.dumps(payload)] runs before the [try] as well: when it raises
    (an int of more than 4300 digits among the numbers), the exception
    leaves the helper, and nothing has been printed or sent. *)
Lemma json_dumps_error_escapes (W : World) (api_key : option string)
    (prompt neg_prompt : string) (width height : Z) (steps scale : pyval)
    (sampler : string) (seed : pyval) (director_json_str : option string)
    (d : gmap string json) (a : Z) (b : spec_float) (c : Z) (e : exn) :
  truthy api_key = true ->
  parse_director_tools W director_json_str = Py [] (Next d) ->
  py_int steps = inr a -> py_float scale = inr b -> py_int seed = inr c ->
  json_dumps_raises W
    (payload_json
       (merge_director
          (base_payload prompt neg_prompt width height a b sampler c) d))
  = Some e ->
  let call := call_novelai_api W api_key prompt neg_prompt width height steps
                scale sampler seed director_json_str in
  completes call = Raised e /\ trace call = [].
Proof.
  intros Hk Hd Ha Hb Hc Hj call. subst call.
  unfold call_novelai_api, prepare_payload, dumps.
  rewrite Hk, Hd, Ha, Hb, Hc. cbn [negb].
  unfold mbind, py_bind, lift, mret, py_ret, print, raise, completes.
  cbn [outcome trace app]. rewrite Hj. split; reflexivity.
Qed.

Example oversized_seed_escapes :
  Demo.call (Cases.bounded 4) (Some "key") (PInt 123456) None
  = Py [] (Raise (mk_exn ValueError
                    "Exceeds the limit (4300 digits) for integer string conversion")).
Proof. vm_compute. reflexivity. Qed.
